(** * xss: request/response body sanitization middleware

    A shallow embedding of the Go package [xss] (the Defender, its options,
    the request codecs for JSON, url-encoded forms, multipart forms and GET
    queries, and the response filter), followed by the properties of the
    engine that the specification states.

    Go strings and [bytes.Buffer] contents are byte sequences: they are
    [string]s here (one [ascii] per byte).  Code that can fail returns a
    [result]: a value, a Go [error], or a run-time panic.  The libraries the
    package calls (bluemonday, fmt, encoding/json, mime/multipart, net/url)
    are the fields of the class [Lib]; [GoLib] is a reference instance used
    to run the code on concrete requests. *)

From Stdlib Require Import ZArith List Bool Ascii String Lia.
Import ListNotations.
Local Open Scope string_scope.
Local Open Scope Z_scope.
Set Warnings "-register-all".

(** ** Results of fallible code *)

Inductive error : Type :=
| errNotJson               (* var errNotJson, filter_xss.go *)
| errUnknownContentType    (* errors.New("Unknown Content Type Received") *)
| errRecreateMultipart     (* errors.New("error recreating Multipart form Request") *)
| errXSSFilter             (* var errXSSFilter, filter_xss.go *)
| errLib (msg : string).   (* an error returned by a library call *)

Inductive result (A : Type) : Type :=
| Ok (a : A)
| Err (e : error)
| Panic.
Arguments Ok {A} a.
Arguments Err {A} e.
Arguments Panic {A}.

Definition bind {A B : Type} (c : result A) (k : A -> result B) : result B :=
  match c with
  | Ok a => k a
  | Err e => Err e
  | Panic => Panic
  end.

Notation "x <- c ;; k" := (bind c (fun x => k))
  (at level 61, c at next level, right associativity).

(** ** bytes.Buffer *)

Definition dquote : ascii := ascii_of_nat 34.
Definition CR : ascii := ascii_of_nat 13.
Definition LF : ascii := ascii_of_nat 10.
Definition CRLF : string := String CR (String LF "").

Definition Buffer := string.

Definition WriteString (b : Buffer) (s : string) : Buffer := b ++ s.
Definition WriteByte (b : Buffer) (c : ascii) : Buffer := b ++ String c "".
Definition Len (b : Buffer) : Z := Z.of_nat (String.length b).

(** [Truncate] keeps the first [n] bytes and panics when [n] is negative or
    larger than the buffer. *)
Definition Truncate (b : Buffer) (n : Z) : result Buffer :=
  if (n <? 0) || (Len b <? n) then Panic
  else Ok (substring 0 (Z.to_nat n) b).

(** ** Decoded JSON values

    What [json.Decoder.Decode] stores in an [interface{}] once [UseNumber]
    is set: nil, bool, [json.Number] (the literal's text), string,
    [[]interface{}] and [map[string]interface{}].  A map is the list of its
    entries in the order in which a [range] loop visits them; Go leaves that
    order unspecified, so nothing below assumes one. *)

Inductive value : Type :=
| VNil
| VBool (b : bool)
| VNumber (n : string)
| VString (s : string)
| VSlice (ss : list value)
| VMap (mp : list (string * value)).

Definition Json := list (string * value).

(** ** The libraries *)

(** A bluemonday policy is used through [Sanitize] only. *)
Definition Policy := string -> string.

(** url.Values *)
Definition Values := list (string * list string).

(** One part of a multipart body as [multipart.Reader.NextPart] returns it,
    with the outcome of [io.Copy(&buf, part)]. *)
Record Part : Type := {
  FormName : string;
  FileName : string;
  HeaderContentType : string;      (* part.Header.Get("Content-Type") *)
  Data : string;                   (* the bytes io.Copy read *)
  CopyErr : option error           (* the error io.Copy returned *)
}.

Class Lib : Type := {
  (* bluemonday.StrictPolicy() *)
  StrictPolicy : Policy;
  (* fmt.Sprintf("%q", s) for a string s *)
  Quote : string -> string;
  (* d := json.NewDecoder(r); d.UseNumber(); d.Decode(&v) *)
  Decode : string -> option value;
  (* multipart.NewReader(body, boundary): the parts NextPart returns before
     its first error *)
  NewReader : string -> string -> list Part;
  (* url.ParseQuery: the parsed values and the first error met *)
  ParseQuery : string -> Values * option error;
  (* url.QueryEscape *)
  QueryEscape : string -> string
}.

(** ** Defender and its options (option.go) *)

Record Defender : Type := {
  skipFields : list string;
  policy : Policy
}.

Definition Option := Defender -> Defender.

Definition SetSkipFields (ss : list string) : Option :=
  fun defender => {| skipFields := ss; policy := policy defender |}.

Definition SetPolicy (pol : Policy) : Option :=
  fun defender => {| skipFields := skipFields defender; policy := pol |}.

Definition NewDefender (pol : Policy) (options : list Option) : Defender :=
  fold_left (fun res option => option res) options
            {| skipFields := []; policy := pol |}.

Definition DefaultDefender `{Lib} (options : list Option) : Defender :=
  let options := (options ++ [SetSkipFields ["password"]])%list in
  NewDefender StrictPolicy options.

(** ** fmt verbs on decoded values *)

Fixpoint insert_by_key {A : Type} (kv : string * A) (l : list (string * A))
  : list (string * A) :=
  match l with
  | [] => [kv]
  | x :: r => if String.leb (fst kv) (fst x) then kv :: l
              else x :: insert_by_key kv r
  end.

Definition sort_by_key {A : Type} (l : list (string * A)) : list (string * A) :=
  fold_right insert_by_key [] l.

Definition FormatBool (b : bool) : string := if b then "true" else "false".

(** [%q] below the top level: strings and [json.Number] (a Stringer) are
    quoted, a bool is a bad verb, a nil element prints as [<nil>], a slice
    is space separated and a map is printed with its keys sorted. *)
Fixpoint printValue_q `{Lib} (v : value) : string :=
  match v with
  | VNil => "<nil>"
  | VBool b => "%!q(bool=" ++ FormatBool b ++ ")"
  | VNumber n => Quote n
  | VString s => Quote s
  | VSlice ss => "[" ++ concat " " (map printValue_q ss) ++ "]"
  | VMap mp =>
      "map[" ++
      concat " "
        (map (fun kv => Quote (fst kv) ++ ":" ++ snd kv)
             (sort_by_key
                (map (fun kv => let '(k, x) := kv in (k, printValue_q x)) mp)))
      ++ "]"
  end.

(** fmt.Sprintf("%q", v) *)
Definition Sprintf_q `{Lib} (v : value) : string :=
  match v with
  | VNil => "%!q(<nil>)"
  | _ => printValue_q v
  end.

(** ** JSON encoding with the policy applied *)

(** The loop over [p.skipFields] with its [break]. *)
Fixpoint inSkipFields (k : string) (fields : list string) : bool :=
  match fields with
  | [] => false
  | fts :: rest => if String.eqb k fts then true else inSkipFields k rest
  end.

Section Loops.
Context `{Lib}.
Variable p : Defender.

(** The [range mp] loop of [ConstructJson]; [build] is
    [p.buildJsonApplyPolicy(_, p.policy)]. *)
Variable build : value -> result Buffer.

Fixpoint ConstructJson_range (mp : Json) (buff : Buffer) {struct mp}
  : result Buffer :=
  match mp with
  | [] => Ok buff
  | (k, v) :: rest =>
      let buff := WriteByte buff dquote in
      let buff := WriteString buff k in
      let buff := WriteByte buff dquote in
      let buff := WriteByte buff ":" in
      if inSkipFields k (skipFields p) then
        let buff := WriteString buff (Sprintf_q v) in
        let buff := WriteByte buff "," in
        ConstructJson_range rest buff
      else
        apndBuff <- build v ;;
        ConstructJson_range rest (WriteString buff apndBuff)
  end.

Definition ConstructJson_with (mp : Json) : result Buffer :=
  buff <- ConstructJson_range mp (WriteByte "" "{") ;;
  buff <- Truncate buff (Len buff - 1) ;;
  Ok (WriteByte buff "}").

(** The [range ss] loop of [unravelSlice]; [construct] is
    [p.ConstructJson].  The type switch has the two cases [map] and
    [string] and no default. *)
Variable construct : Json -> result Buffer.

Fixpoint unravelSlice_range (ss : list value) (pol : Policy) (buff : Buffer)
  {struct ss} : result Buffer :=
  match ss with
  | [] => Ok buff
  | item :: rest =>
      match item with
      | VMap tp =>
          bf <- construct tp ;;
          unravelSlice_range rest pol (WriteByte (WriteString buff bf) ",")
      | VString tp =>
          unravelSlice_range rest pol
            (WriteByte (WriteString buff (Quote (pol tp))) ",")
      | _ => unravelSlice_range rest pol buff
      end
  end.

Definition unravelSlice_with (ss : list value) (pol : Policy) : result Buffer :=
  buff <- unravelSlice_range ss pol (WriteByte "" "[") ;;
  buff <- Truncate buff (Len buff - 1) ;;
  Ok (WriteByte buff "]").
End Loops.

(** [buildJsonApplyPolicy]: the [float64] case of the type switch is left
    out, since a decoder with [UseNumber] yields no [float64]; a bool is
    the non-nil [default] case. *)
Fixpoint buildJsonApplyPolicy `{Lib} (p : Defender) (interf : value) (pol : Policy)
  {struct interf} : result Buffer :=
  let buff : Buffer := "" in
  match interf with
  | VMap v =>
      bf <- ConstructJson_with p (fun x => buildJsonApplyPolicy p x (policy p)) v ;;
      Ok (WriteByte (WriteString buff bf) ",")
  | VSlice v =>
      bf <- unravelSlice_with
              (ConstructJson_with p (fun x => buildJsonApplyPolicy p x (policy p)))
              v pol ;;
      Ok (WriteByte (WriteString buff bf) ",")
  | VNumber v => Ok (WriteByte (WriteString buff (pol v)) ",")
  | VString v => Ok (WriteByte (WriteString buff (Quote (pol v))) ",")
  | VNil => Ok (WriteByte (WriteString buff "null") ",")
  | VBool v => Ok (WriteByte (WriteString buff (pol (FormatBool v))) ",")
  end.

Definition ConstructJson `{Lib} (p : Defender) (mp : Json) : result Buffer :=
  ConstructJson_with p (fun v => buildJsonApplyPolicy p v (policy p)) mp.

Definition unravelSlice `{Lib} (p : Defender) (ss : list value) (pol : Policy)
  : result Buffer :=
  unravelSlice_with (ConstructJson p) ss pol.

(** ** The JSON pipeline *)

(** The [range jbt] loop of [jsonToStringMap]: the type assertion
    [n.(map[string]interface{})] panics on an element that is no object. *)
Fixpoint jsonToStringMap_range `{Lib} (p : Defender) (jbt : list value)
  (multiRec : Buffer) {struct jbt} : result Buffer :=
  match jbt with
  | [] => Ok multiRec
  | n :: rest =>
      match n with
      | VMap xmj =>
          buff <- ConstructJson p xmj ;;
          let multiRec := WriteString multiRec buff in
          let multiRec := WriteByte multiRec "," in
          jsonToStringMap_range p rest multiRec
      | _ => Panic
      end
  end.

Definition jsonToStringMap `{Lib} (p : Defender) (jsonBod : value) : result Buffer :=
  match jsonBod with
  | VMap xmj => ConstructJson p xmj
  | VSlice jbt =>
      multiRec <- jsonToStringMap_range p jbt (WriteByte "" "[") ;;
      multiRec <- Truncate multiRec (Len multiRec - 1) ;;
      Ok (WriteByte multiRec "]")
  | _ => Err errUnknownContentType
  end.

Definition decodeJson `{Lib} (content : string) : result value :=
  match Decode content with
  | None => Err errNotJson
  | Some jsonBod => Ok jsonBod
  end.

(** filter_xss.go *)
Definition BuildNewBody `{Lib} (p : Defender) (body : Buffer) : result Buffer :=
  jsonBod <- decodeJson body ;;
  buff <- jsonToStringMap p jsonBod ;;
  Ok buff.

(** ** Requests *)

Record Request : Type := {
  Method : string;
  ContentType : string;        (* Header.Get("Content-Type") *)
  ContentLength : string;      (* Header.Get("Content-Length") *)
  Body : option string;        (* nil, or the bytes the body reader yields *)
  RawQuery : string            (* URL.RawQuery *)
}.

Definition setBody (c : Request) (b : string) : Request :=
  {| Method := Method c; ContentType := ContentType c;
     ContentLength := ContentLength c; Body := Some b;
     RawQuery := RawQuery c |}.

Definition setRawQuery (c : Request) (q : string) : Request :=
  {| Method := Method c; ContentType := ContentType c;
     ContentLength := ContentLength c; Body := Body c;
     RawQuery := q |}.

(** Reading from a nil body is a nil dereference. *)
Definition HandleJson `{Lib} (p : Defender) (c : Request) : result Request :=
  match Body c with
  | None => Panic
  | Some body =>
      jsonBod <- decodeJson body ;;
      buff <- jsonToStringMap p jsonBod ;;
      Ok (setBody c buff)
  end.

(** ** The form codec *)

(** [v[0]] *)
Definition index0 (v : list string) : result string :=
  match v with
  | [] => Panic
  | x :: _ => Ok x
  end.

Fixpoint HandleXFormEncoded_range `{Lib} (p : Defender) (m : Values) (bq : Buffer)
  {struct m} : result Buffer :=
  match m with
  | [] => Ok bq
  | (k, v) :: rest =>
      let bq := WriteString bq k in
      let bq := WriteByte bq "=" in
      v0 <- index0 v ;;
      let bq :=
        if inSkipFields k (skipFields p) then WriteString bq (QueryEscape v0)
        else WriteString bq (QueryEscape (policy p v0)) in
      let bq := WriteByte bq "&" in
      HandleXFormEncoded_range p rest bq
  end.

Definition HandleXFormEncoded `{Lib} (p : Defender) (c : Request) : result Request :=
  match Body c with
  | None => Ok c
  | Some buf =>
      match ParseQuery buf with
      | (_, Some uerr) => Err uerr
      | (m, None) =>
          bq <- HandleXFormEncoded_range p m "" ;;
          if 1 <? Len bq then
            bq <- Truncate bq (Len bq - 1) ;;
            Ok (setBody c bq)
          else Ok (setBody c buf)
      end
  end.

(** ** The multipart codec *)

(** strings.Index *)
Definition Index (s substr : string) : Z :=
  match index 0 substr s with
  | Some n => Z.of_nat n
  | None => -1
  end.

(** strings.Contains *)
Definition Contains (s substr : string) : bool := 0 <=? Index s substr.

(** [s[lo:]] *)
Definition slice_from (s : string) (lo : Z) : result string :=
  if (lo <? 0) || (Len s <? lo) then Panic
  else Ok (substring (Z.to_nat lo) (String.length s - Z.to_nat lo) s).

(** The body of the [for i := 0; i < 100; i++] loop, run on the parts that
    are left; [fuel] is [100 - i]. *)
Fixpoint HandleMultiPartFormData_loop `{Lib} (fuel : nat) (reader : list Part)
  (boundary : string) (multiPrtFrm : Buffer) {struct fuel} : result Buffer :=
  match fuel with
  | O => Ok multiPrtFrm
  | S fuel' =>
      match reader with
      | [] => Ok multiPrtFrm                          (* NextPart failed: break *)
      | part :: reader' =>
          match CopyErr part with
          | Some err => Err err
          | None =>
              let buf := Data part in
              if Len buf <=? 0 then Err errRecreateMultipart
              else
                let multiPrtFrm :=
                  WriteString multiPrtFrm ("--" ++ boundary ++ CRLF) in
                let multiPrtFrm :=
                  if negb (String.eqb (FileName part) "") then
                    let fn := FileName part in
                    let mtype := HeaderContentType part in
                    let multiPrtFrm :=
                      WriteString multiPrtFrm
                        ("Content-Disposition: form-data; name=" ++ String dquote ""
                           ++ FormName part ++ String dquote "; ") in
                    let multiPrtFrm :=
                      WriteString multiPrtFrm
                        ("filename=" ++ String dquote "" ++ fn
                           ++ String dquote ";" ++ CRLF) in
                    let mtype :=
                      if String.eqb mtype "" then "application/octet-stream"
                      else mtype in
                    let multiPrtFrm :=
                      WriteString multiPrtFrm
                        ("Content-Type: " ++ mtype ++ CRLF ++ CRLF) in
                    WriteString multiPrtFrm (buf ++ CRLF)
                  else
                    let multiPrtFrm :=
                      WriteString multiPrtFrm
                        ("Content-Disposition: form-data; name=" ++ String dquote ""
                           ++ FormName part ++ String dquote ";" ++ CRLF ++ CRLF) in
                    let p := StrictPolicy in
                    if String.eqb "password" (FormName part) then
                      WriteString multiPrtFrm (buf ++ CRLF)
                    else
                      WriteString multiPrtFrm (p buf ++ CRLF) in
                HandleMultiPartFormData_loop fuel' reader' boundary multiPrtFrm
          end
      end
  end.

Definition HandleMultiPartFormData `{Lib} (p : Defender) (c : Request)
  (reqContentType : string) : result Request :=
  match Body c with
  | None => Panic
  | Some ioreader =>
      boundary <- slice_from reqContentType (Index reqContentType "boundary=" + 9) ;;
      let reader := NewReader ioreader boundary in
      multiPrtFrm <- HandleMultiPartFormData_loop 100 reader boundary "" ;;
      let multiPrtFrm := WriteString multiPrtFrm ("--" ++ boundary ++ "--" ++ CRLF) in
      Ok (setBody c multiPrtFrm)
  end.

(** ** The query rewriter *)

(** [url.Values.Del] and [url.Values.Set] *)
Definition Values_Del (key : string) (v : Values) : Values :=
  filter (fun e => negb (String.eqb (fst e) key)) v.

Fixpoint Values_Set (key value : string) (v : Values) : Values :=
  match v with
  | [] => [(key, [value])]
  | (k, vs) :: rest =>
      if String.eqb k key then (key, [value]) :: rest
      else (k, vs) :: Values_Set key value rest
  end.

(** The two loops of [url.Values.Encode], over the sorted keys and over the
    values of a key. *)
Fixpoint Encode_values `{Lib} (keyEscaped : string) (vs : list string) (buf : Buffer)
  : Buffer :=
  match vs with
  | [] => buf
  | v :: rest =>
      let buf := if 0 <? Len buf then WriteByte buf "&" else buf in
      let buf := WriteString buf keyEscaped in
      let buf := WriteByte buf "=" in
      let buf := WriteString buf (QueryEscape v) in
      Encode_values keyEscaped rest buf
  end.

Fixpoint Encode_keys `{Lib} (sorted : Values) (buf : Buffer) : Buffer :=
  match sorted with
  | [] => buf
  | (k, vs) :: rest => Encode_keys rest (Encode_values (QueryEscape k) vs buf)
  end.

Definition Values_Encode `{Lib} (v : Values) : string :=
  match v with
  | [] => ""
  | _ => Encode_keys (sort_by_key v) ""
  end.

(** [fieldToSkip]: the map built from [p.skipFields]; a key that is absent
    reads as false. *)
Definition fieldToSkip_of (fields : list string) : list (string * bool) :=
  fold_left (fun m fts => (fts, true) :: m) fields [].

Fixpoint fieldToSkip_get (m : list (string * bool)) (key : string) : bool :=
  match m with
  | [] => false
  | (k, b) :: rest => if String.eqb key k then b else fieldToSkip_get rest key
  end.

(** The inner loop [for _, item := range items]. *)
Definition HandleGETRequest_items (p : Defender) (key : string) (items : list string)
  (queryParams : Values) : Values :=
  fold_left (fun qp item => Values_Set key (policy p item) qp) items queryParams.

(** The outer loop, over the entries of the map as the loop meets them.
    The loop deletes and sets again the key it is visiting; each key is
    visited once here. *)
Fixpoint HandleGETRequest_range (p : Defender) (fieldToSkip : list (string * bool))
  (entries : Values) (queryParams : Values) {struct entries} : Values :=
  match entries with
  | [] => queryParams
  | (key, items) :: rest =>
      if fieldToSkip_get fieldToSkip key then
        HandleGETRequest_range p fieldToSkip rest queryParams
      else
        let queryParams := Values_Del key queryParams in
        let queryParams := HandleGETRequest_items p key items queryParams in
        HandleGETRequest_range p fieldToSkip rest queryParams
  end.

(** [c.Request.URL.Query()] drops the error of [ParseQuery]. *)
Definition URL_Query `{Lib} (c : Request) : Values := fst (ParseQuery (RawQuery c)).

Definition HandleGETRequest `{Lib} (p : Defender) (c : Request) : result Request :=
  let queryParams := URL_Query c in
  let fieldToSkip := fieldToSkip_of (skipFields p) in
  let queryParams := HandleGETRequest_range p fieldToSkip queryParams queryParams in
  Ok (setRawQuery c (Values_Encode queryParams)).

(** ** The dispatcher *)

Definition is_digit (c : ascii) : bool :=
  (48 <=? nat_of_ascii c)%nat && (nat_of_ascii c <=? 57)%nat.

Fixpoint digits_value (s : string) (acc : Z) : option Z :=
  match s with
  | "" => Some acc
  | String c r =>
      if is_digit c then digits_value r (10 * acc + (Z.of_nat (nat_of_ascii c) - 48))
      else None
  end.

Definition clamp_int (n : Z) : Z :=
  Z.max (- 2 ^ 63) (Z.min (2 ^ 63 - 1) n).

(** [rclen, _ := strconv.Atoi(s)]: 0 on a syntax error, the nearest [int]
    on a range error. *)
Definition Atoi (s : string) : Z :=
  let unsigned (r : string) (sign : Z) :=
    match r with
    | "" => 0
    | _ => match digits_value r 0 with
           | Some n => clamp_int (sign * n)
           | None => 0
           end
    end in
  match s with
  | "" => 0
  | String c r =>
      if Ascii.eqb c "+" then unsigned r 1
      else if Ascii.eqb c "-" then unsigned r (-1)
      else unsigned s 1
  end.

Definition XssRemove `{Lib} (p : Defender) (c : Request) : result Request :=
  let ReqMethod := Method c in
  let reqContentType := ContentType c in
  let reqContentLen := ContentLength c in
  let rclen := Atoi reqContentLen in
  if String.eqb ReqMethod "POST" || String.eqb ReqMethod "PUT"
     || String.eqb ReqMethod "PATCH" then
    if (1 <? rclen) && String.eqb reqContentType "application/json" then
      HandleJson p c
    else if String.eqb reqContentType "application/x-www-form-urlencoded" then
      HandleXFormEncoded p c
    else if Contains reqContentType "multipart/form-data" then
      HandleMultiPartFormData p c reqContentType
    else Ok c
  else if String.eqb ReqMethod "GET" then
    HandleGETRequest p c
  else Ok c.

(** What [removeXSS] does with the request: [ctx.Abort()], [ctx.Next()] on
    the rewritten request, or a panic that unwinds the handler. *)
Inductive Middleware : Type :=
| Aborted
| Next (c : Request)
| Panicked.

Definition removeXSS `{Lib} (p : Defender) (c : Request) : Middleware :=
  match XssRemove p c with
  | Err _ => Aborted
  | Ok c' => Next c'
  | Panic => Panicked
  end.

(** ** The response filter (filter_xss.go)

    filter_xss.go holds two revisions of the filter.  The one embedded
    here is the later one: it declares [errNotJson], which [decodeJson]
    returns, and it looks at the content type of the response before it
    rewrites anything. *)

(** What the handlers behind [ctx.Next()] did to the response: the byte
    slices they passed to [Write], in order, and the content type they
    left in the header. *)
Record Handled : Type := {
  writes : list string;
  respContentType : string         (* ctx.Writer.Header().Get("content-type") *)
}.

(** [BodyWriter.Write] appends to [w.body]. *)
Definition BodyWriter_Write (body : Buffer) (b : string) : Buffer :=
  WriteString body b.

Record Response : Type := {
  Sent : string;                   (* what w.ResponseWriter.WriteString got *)
  AbortStatus : option (Z * error); (* ctx.AbortWithError(code, err) *)
  Captured : Buffer                (* w.body when the filter returns *)
}.

Definition FilterXSS `{Lib} (p : Defender) (h : Handled) : result Response :=
  let body := fold_left BodyWriter_Write (writes h) "" in
  let oldBody := body in
  let respContentTp := respContentType h in
  if negb (Contains respContentTp "application/json") then
    Ok {| Sent := oldBody; AbortStatus := None; Captured := "" |}
  else
    match BuildNewBody p oldBody with
    | Err _ =>
        Ok {| Sent := ""; AbortStatus := Some (500, errXSSFilter); Captured := body |}
    | Ok newBody => Ok {| Sent := newBody; AbortStatus := None; Captured := "" |}
    | Panic => Panic
    end.

(** ** A reference instance of the libraries

    Executable models of the library calls, used to run the package on
    concrete requests.  [GoQueryEscape], [GoParseQuery] and [GoDecode]
    follow net/url and encoding/json byte for byte on ASCII input;
    [GoQuote] is strconv.Quote on ASCII input; [strip_tags] stands for a
    strict markup policy and only deletes tags. *)

Definition byte_of (c : ascii) : Z := Z.of_nat (nat_of_ascii c).
Definition ascii_of (n : Z) : ascii := ascii_of_nat (Z.to_nat n).

Definition in_range (lo hi c : ascii) : bool :=
  (byte_of lo <=? byte_of c) && (byte_of c <=? byte_of hi).

Definition hex_digit (digits : string) (n : Z) : string :=
  match get (Z.to_nat n) digits with
  | Some c => String c ""
  | None => ""
  end.

Definition hex2 (digits : string) (c : ascii) : string :=
  hex_digit digits (byte_of c / 16) ++ hex_digit digits (byte_of c mod 16).

Definition ishex (c : ascii) : bool :=
  in_range "0" "9" c || in_range "a" "f" c || in_range "A" "F" c.

Definition unhex (c : ascii) : Z :=
  if in_range "0" "9" c then byte_of c - 48
  else if in_range "a" "f" c then byte_of c - 97 + 10
  else if in_range "A" "F" c then byte_of c - 65 + 10
  else 0.

(** *** net/url *)

Definition shouldEscape (c : ascii) : bool :=
  negb (in_range "a" "z" c || in_range "A" "Z" c || in_range "0" "9" c
        || Ascii.eqb c "-" || Ascii.eqb c "_" || Ascii.eqb c "."
        || Ascii.eqb c "~").

Fixpoint GoQueryEscape (s : string) : string :=
  match s with
  | "" => ""
  | String c r =>
      (if Ascii.eqb c " " then "+"
       else if shouldEscape c then "%" ++ hex2 "0123456789ABCDEF" c
       else String c "") ++ GoQueryEscape r
  end.

Fixpoint GoQueryUnescape (s : string) : option string :=
  match s with
  | "" => Some ""
  | String c r =>
      if Ascii.eqb c "%" then
        match r with
        | String h1 (String h2 r') =>
            if ishex h1 && ishex h2 then
              option_map (String (ascii_of (16 * unhex h1 + unhex h2)))
                         (GoQueryUnescape r')
            else None
        | _ => None
        end
      else if Ascii.eqb c "+" then option_map (String " ") (GoQueryUnescape r)
      else option_map (String c) (GoQueryUnescape r)
  end.

Fixpoint split (sep : ascii) (s : string) : list string :=
  match s with
  | "" => [""]
  | String c r =>
      if Ascii.eqb c sep then "" :: split sep r
      else match split sep r with
           | [] => [String c ""]
           | h :: t => String c h :: t
           end
  end.

(** strings.Cut(s, "=") *)
Fixpoint Cut (sep : ascii) (s : string) : string * string :=
  match s with
  | "" => ("", "")
  | String c r =>
      if Ascii.eqb c sep then ("", r)
      else let '(before, after) := Cut sep r in (String c before, after)
  end.

Fixpoint has_byte (c : ascii) (s : string) : bool :=
  match s with
  | "" => false
  | String x r => Ascii.eqb x c || has_byte c r
  end.

(** [m[key] = append(m[key], value)] *)
Fixpoint Values_Add (key value : string) (m : Values) : Values :=
  match m with
  | [] => [(key, [value])]
  | (k, vs) :: rest =>
      if String.eqb k key then (k, (vs ++ [value])%list) :: rest
      else (k, vs) :: Values_Add key value rest
  end.

Definition first_err (err : option error) (err1 : error) : option error :=
  match err with
  | None => Some err1
  | Some _ => err
  end.

(** One turn of the loop of [parseQuery], on the segment before the next
    ampersand.  The keys are listed in the order in which they first
    occur, which is one of the orders a [range] loop may take. *)
Definition parseQuery_step (st : Values * option error) (key : string)
  : Values * option error :=
  let '(m, err) := st in
  if has_byte ";" key then
    (m, Some (errLib "invalid semicolon separator in query"))
  else if String.eqb key "" then (m, err)
  else
    let '(key, value) := Cut "=" key in
    match GoQueryUnescape key with
    | None => (m, first_err err (errLib "invalid URL escape"))
    | Some key =>
        match GoQueryUnescape value with
        | None => (m, first_err err (errLib "invalid URL escape"))
        | Some value => (Values_Add key value m, err)
        end
    end.

Definition GoParseQuery (query : string) : Values * option error :=
  fold_left parseQuery_step (split "&" query) ([], None).

(** *** strconv.Quote *)

Definition quote_byte (c : ascii) : string :=
  let n := byte_of c in
  if Ascii.eqb c dquote then String "\" (String dquote "")
  else if Ascii.eqb c "\" then "\\"
  else if (32 <=? n) && (n <? 127) then String c ""
  else if n =? 7 then "\a"
  else if n =? 8 then "\b"
  else if n =? 12 then "\f"
  else if n =? 10 then "\n"
  else if n =? 13 then "\r"
  else if n =? 9 then "\t"
  else if n =? 11 then "\v"
  else "\x" ++ hex2 "0123456789abcdef" c.

Fixpoint quote_bytes (s : string) : string :=
  match s with
  | "" => ""
  | String c r => quote_byte c ++ quote_bytes r
  end.

Definition GoQuote (s : string) : string :=
  String dquote (quote_bytes s) ++ String dquote "".

(** *** A strict markup policy *)

Fixpoint strip_tags_from (in_tag : bool) (s : string) : string :=
  match s with
  | "" => ""
  | String c r =>
      if in_tag then strip_tags_from (negb (Ascii.eqb c ">")) r
      else if Ascii.eqb c "<" then strip_tags_from true r
      else String c (strip_tags_from false r)
  end.

Definition strip_tags : Policy := strip_tags_from false.

(** *** encoding/json

    [GoDecode] reads the first JSON value of the input as
    [Decoder.Decode] does, numbers kept as their text ([UseNumber]); a
    key met twice keeps its last value.  The entries of an object are
    listed in the order of the text, which is one of the orders a [range]
    loop may take.  Bytes above 127 are copied as they are (the library
    also replaces ill-formed UTF-8), and the library's limit on the
    nesting depth is not modelled. *)

Definition isSpace (c : ascii) : bool :=
  Ascii.eqb c " " || Ascii.eqb c (ascii_of_nat 9) || Ascii.eqb c CR || Ascii.eqb c LF.

Fixpoint skip_space (s : string) : string :=
  match s with
  | "" => ""
  | String c r => if isSpace c then skip_space r else s
  end.

(** utf8.EncodeRune *)
Definition utf8 (cp : Z) : string :=
  if cp <? 128 then String (ascii_of cp) ""
  else if cp <? 2048 then
    String (ascii_of (192 + cp / 64)) (String (ascii_of (128 + cp mod 64)) "")
  else if cp <? 65536 then
    String (ascii_of (224 + cp / 4096))
      (String (ascii_of (128 + (cp / 64) mod 64))
         (String (ascii_of (128 + cp mod 64)) ""))
  else
    String (ascii_of (240 + cp / 262144))
      (String (ascii_of (128 + (cp / 4096) mod 64))
         (String (ascii_of (128 + (cp / 64) mod 64))
            (String (ascii_of (128 + cp mod 64)) ""))).

Definition getu4 (s : string) : option (Z * string) :=
  match s with
  | String a (String b (String c (String d r))) =>
      if ishex a && ishex b && ishex c && ishex d then
        Some (((unhex a * 16 + unhex b) * 16 + unhex c) * 16 + unhex d, r)
      else None
  | _ => None
  end.

Definition ReplacementChar : Z := 65533.

Definition IsSurrogate (r : Z) : bool := (55296 <=? r) && (r <? 57344).

(** utf16.DecodeRune *)
Definition DecodeRune (r1 r2 : Z) : Z :=
  if (55296 <=? r1) && (r1 <? 56320) && (56320 <=? r2) && (r2 <? 57344) then
    (r1 - 55296) * 1024 + (r2 - 56320) + 65536
  else ReplacementChar.

Definition simple_escape (e : ascii) : option ascii :=
  if Ascii.eqb e dquote then Some dquote
  else if Ascii.eqb e "\" then Some "\"%char
  else if Ascii.eqb e "/" then Some "/"%char
  else if Ascii.eqb e "b" then Some (ascii_of_nat 8)
  else if Ascii.eqb e "f" then Some (ascii_of_nat 12)
  else if Ascii.eqb e "n" then Some LF
  else if Ascii.eqb e "r" then Some CR
  else if Ascii.eqb e "t" then Some (ascii_of_nat 9)
  else None.

Definition prepend (pre : string) (r : option (string * string))
  : option (string * string) :=
  match r with
  | Some (s, rest) => Some (pre ++ s, rest)
  | None => None
  end.

(** The text of a string literal after its opening quote, with what
    follows the closing quote. *)
Fixpoint unquote (fuel : nat) (s : string) : option (string * string) :=
  match fuel with
  | O => None
  | S fuel =>
      match s with
      | "" => None
      | String c r =>
          if Ascii.eqb c dquote then Some ("", r)
          else if Ascii.eqb c "\" then
            match r with
            | "" => None
            | String e r1 =>
                match simple_escape e with
                | Some x => prepend (String x "") (unquote fuel r1)
                | None =>
                    if Ascii.eqb e "u" then
                      match getu4 r1 with
                      | None => None
                      | Some (rr, r2) =>
                          if IsSurrogate rr then
                            match r2 with
                            | String b (String u r3) =>
                                match
                                  (if Ascii.eqb b "\" && Ascii.eqb u "u"
                                   then getu4 r3 else None)
                                with
                                | Some (rr1, r4) =>
                                    if DecodeRune rr rr1 =? ReplacementChar then
                                      prepend (utf8 ReplacementChar) (unquote fuel r2)
                                    else
                                      prepend (utf8 (DecodeRune rr rr1))
                                              (unquote fuel r4)
                                | None =>
                                    prepend (utf8 ReplacementChar) (unquote fuel r2)
                                end
                            | _ => prepend (utf8 ReplacementChar) (unquote fuel r2)
                            end
                          else prepend (utf8 rr) (unquote fuel r2)
                      end
                    else None
                end
            end
          else if byte_of c <? 32 then None
          else prepend (String c "") (unquote fuel r)
      end
  end.

Fixpoint take_digits (s : string) : string * string :=
  match s with
  | "" => ("", "")
  | String c r =>
      if is_digit c then let '(ds, rest) := take_digits r in (String c ds, rest)
      else ("", s)
  end.

Definition scan_exp (txt : string) (s : string) : option (string * string) :=
  match s with
  | String e r =>
      if Ascii.eqb e "e" || Ascii.eqb e "E" then
        let '(sgn, r1) :=
          match r with
          | String g r' =>
              if Ascii.eqb g "+" || Ascii.eqb g "-" then (String g "", r')
              else ("", r)
          | "" => ("", r)
          end in
        let '(ds, r2) := take_digits r1 in
        if String.eqb ds "" then None
        else Some (txt ++ String e "" ++ sgn ++ ds, r2)
      else Some (txt, s)
  | "" => Some (txt, s)
  end.

Definition scan_frac (txt : string) (s : string) : option (string * string) :=
  match s with
  | String d r =>
      if Ascii.eqb d "." then
        let '(ds, r1) := take_digits r in
        if String.eqb ds "" then None
        else scan_exp (txt ++ "." ++ ds) r1
      else scan_exp txt s
  | "" => scan_exp txt s
  end.

(** A number literal at the head of [s], with what follows it. *)
Definition scan_number (s : string) : option (string * string) :=
  let '(sign, s1) :=
    match s with
    | String c r => if Ascii.eqb c "-" then ("-", r) else ("", s)
    | "" => ("", s)
    end in
  match s1 with
  | "" => None
  | String c r =>
      if Ascii.eqb c "0" then scan_frac (sign ++ "0") r
      else if in_range "1" "9" c then
        let '(ds, r1) := take_digits r in
        scan_frac (sign ++ String c ds) r1
      else None
  end.

(** [m[key] = v] *)
Fixpoint Json_set (key : string) (v : value) (m : Json) : Json :=
  match m with
  | [] => [(key, v)]
  | (k, x) :: rest =>
      if String.eqb k key then (k, v) :: rest
      else (k, x) :: Json_set key v rest
  end.

Definition drop (n : nat) (s : string) : string :=
  substring n (String.length s - n) s.

Fixpoint parse_value (fuel : nat) (s : string) {struct fuel}
  : option (value * string) :=
  match fuel with
  | O => None
  | S fuel =>
      match skip_space s with
      | "" => None
      | String c r =>
          if Ascii.eqb c "{" then
            match skip_space r with
            | "" => None
            | String c1 r1 =>
                if Ascii.eqb c1 "}" then Some (VMap [], r1)
                else parse_members fuel (String c1 r1) []
            end
          else if Ascii.eqb c "[" then
            match skip_space r with
            | "" => None
            | String c1 r1 =>
                if Ascii.eqb c1 "]" then Some (VSlice [], r1)
                else parse_elements fuel (String c1 r1) []
            end
          else if Ascii.eqb c dquote then
            match unquote (String.length r) r with
            | Some (str, rest) => Some (VString str, rest)
            | None => None
            end
          else if prefix "true" (String c r) then Some (VBool true, drop 4 (String c r))
          else if prefix "false" (String c r) then Some (VBool false, drop 5 (String c r))
          else if prefix "null" (String c r) then Some (VNil, drop 4 (String c r))
          else
            match scan_number (String c r) with
            | Some (n, rest) => Some (VNumber n, rest)
            | None => None
            end
      end
  end
with parse_members (fuel : nat) (s : string) (acc : Json) {struct fuel}
  : option (value * string) :=
  match fuel with
  | O => None
  | S fuel =>
      match skip_space s with
      | "" => None
      | String c r =>
          if Ascii.eqb c dquote then
            match unquote (String.length r) r with
            | None => None
            | Some (key, r1) =>
                match skip_space r1 with
                | "" => None
                | String c2 r2 =>
                    if Ascii.eqb c2 ":" then
                      match parse_value fuel r2 with
                      | None => None
                      | Some (v, r3) =>
                          match skip_space r3 with
                          | "" => None
                          | String c4 r4 =>
                              if Ascii.eqb c4 "," then
                                parse_members fuel r4 (Json_set key v acc)
                              else if Ascii.eqb c4 "}" then
                                Some (VMap (Json_set key v acc), r4)
                              else None
                          end
                      end
                    else None
                end
            end
          else None
      end
  end
with parse_elements (fuel : nat) (s : string) (acc : list value) {struct fuel}
  : option (value * string) :=
  match fuel with
  | O => None
  | S fuel =>
      match parse_value fuel s with
      | None => None
      | Some (v, r1) =>
          match skip_space r1 with
          | "" => None
          | String c2 r2 =>
              if Ascii.eqb c2 "," then parse_elements fuel r2 (acc ++ [v])%list
              else if Ascii.eqb c2 "]" then Some (VSlice (acc ++ [v])%list, r2)
              else None
          end
      end
  end.

Definition GoDecode (content : string) : option value :=
  match parse_value (2 * String.length content + 2) content with
  | Some (v, _) => Some v
  | None => None
  end.

(** The multipart reader is not modelled: the instance takes the parts it
    yields. *)
Definition GoLib (parts : list Part) : Lib := {|
  StrictPolicy := strip_tags;
  Quote := GoQuote;
  Decode := GoDecode;
  NewReader := fun _ _ => parts;
  ParseQuery := GoParseQuery;
  QueryEscape := GoQueryEscape
|}.

(** The default Defender over the reference libraries. *)
Definition GoDefault : Defender := @DefaultDefender (GoLib []) [].

(** Examples are written with [']; [js] puts the double quotes back. *)
Fixpoint js (s : string) : string :=
  match s with
  | "" => ""
  | String c r => String (if Ascii.eqb c "'" then dquote else c) (js r)
  end.

(** ** What the encoders write

    The bytes the loops of the JSON encoder append, as functions of the
    decoded value: [encode p pol v] is what [buildJsonApplyPolicy p v pol]
    writes before its comma.  [drop_last] is the [Truncate(Len() - 1)]
    that ends each loop. *)

Definition drop_last (b : Buffer) : Buffer :=
  substring 0 (String.length b - 1) b.

Definition entry_key (k : string) : string :=
  String dquote "" ++ k ++ String dquote "" ++ ":".

Fixpoint encode `{Lib} (p : Defender) (pol : Policy) (v : value) {struct v} : string :=
  match v with
  | VNil => "null"
  | VBool b => pol (FormatBool b)
  | VNumber n => pol n
  | VString s => Quote (pol s)
  | VSlice ss =>
      drop_last
        ("[" ++ concat ""
           (map (fun item =>
                   match item with
                   | VMap _ => encode p (policy p) item ++ ","
                   | VString s => Quote (pol s) ++ ","
                   | _ => ""
                   end) ss)) ++ "]"
  | VMap mp =>
      drop_last
        ("{" ++ concat ""
           (map (fun kv =>
                   let '(k, x) := kv in
                   entry_key k ++
                   (if inSkipFields k (skipFields p) then Sprintf_q x
                    else encode p (policy p) x) ++ ",") mp)) ++ "}"
  end.

(** What one turn of the two loops appends. *)
Definition encode_entry `{Lib} (p : Defender) (kv : string * value) : string :=
  entry_key (fst kv) ++
  (if inSkipFields (fst kv) (skipFields p) then Sprintf_q (snd kv)
   else encode p (policy p) (snd kv)) ++ ",".

Definition encode_item `{Lib} (p : Defender) (pol : Policy) (item : value) : string :=
  match item with
  | VMap _ => encode p (policy p) item ++ ","
  | VString s => Quote (pol s) ++ ","
  | _ => ""
  end.

(** ** Induction on decoded values *)

Section ValueInd.
Variable P : value -> Prop.
Hypothesis HNil : P VNil.
Hypothesis HBool : forall b, P (VBool b).
Hypothesis HNumber : forall n, P (VNumber n).
Hypothesis HString : forall s, P (VString s).
Hypothesis HSlice : forall ss, Forall P ss -> P (VSlice ss).
Hypothesis HMap : forall mp, Forall (fun kv => P (snd kv)) mp -> P (VMap mp).

Fixpoint value_nested_ind (v : value) : P v :=
  match v with
  | VNil => HNil
  | VBool b => HBool b
  | VNumber n => HNumber n
  | VString s => HString s
  | VSlice ss =>
      HSlice ss
        ((fix all (l : list value) : Forall P l :=
            match l with
            | [] => Forall_nil _
            | x :: r => Forall_cons x (value_nested_ind x) (all r)
            end) ss)
  | VMap mp =>
      HMap mp
        ((fix all (l : Json) : Forall (fun kv => P (snd kv)) l :=
            match l with
            | [] => Forall_nil _
            | kv :: r => Forall_cons kv (value_nested_ind (snd kv)) (all r)
            end) mp)
  end.
End ValueInd.

(** ** Statements

    Requests used in examples, the closed forms of what the codecs write,
    and the claims that are refuted below. *)

(** *** JSON requests *)

Definition json_request (method len body : string) : Request :=
  {| Method := method; ContentType := "application/json"; ContentLength := len;
     Body := Some body; RawQuery := "" |}.

Definition is_scalar (v : value) : bool :=
  match v with
  | VMap _ | VSlice _ => false
  | _ => true
  end.

(** The claim C6 on a top-level scalar: the pipeline fails with
    errNotJson. *)
Definition scalar_fails_with_errNotJson (L : Lib) : Prop :=
  forall (p : Defender) (c : Request) (body : string) (v : value),
    Body c = Some body -> @Decode L body = Some v -> is_scalar v = true ->
    @HandleJson L p c = Err errNotJson.

(** *** Form bodies *)

(** The pair the form codec writes for one key: the key as it is, and the
    first value, sanitized unless the key is a skip field, escaped. *)
Definition form_pair `{Lib} (p : Defender) (kv : string * list string) : string :=
  fst kv ++ "=" ++
  QueryEscape (if inSkipFields (fst kv) (skipFields p) then hd "" (snd kv)
               else policy p (hd "" (snd kv))).

Definition form_request (body : string) : Request :=
  {| Method := "POST"; ContentType := "application/x-www-form-urlencoded";
     ContentLength := ""; Body := Some body; RawQuery := "" |}.

(** *** Multipart bodies *)

(** The bytes written for a file part: the delimiter line, the
    disposition with name and filename, the content type, and the bytes of
    the part as they were read.  No library call takes part. *)
Definition emit_file (boundary : string) (part : Part) : string :=
  "--" ++ boundary ++ CRLF
  ++ "Content-Disposition: form-data; name=" ++ String dquote ""
  ++ FormName part ++ String dquote "; "
  ++ "filename=" ++ String dquote "" ++ FileName part ++ String dquote ";" ++ CRLF
  ++ "Content-Type: "
  ++ (if String.eqb (HeaderContentType part) "" then "application/octet-stream"
      else HeaderContentType part)
  ++ CRLF ++ CRLF
  ++ Data part ++ CRLF.

(** The bytes written for a field part: its text goes through a fresh
    strict policy unless the field is named password. *)
Definition emit_field `{Lib} (boundary : string) (part : Part) : string :=
  "--" ++ boundary ++ CRLF
  ++ "Content-Disposition: form-data; name=" ++ String dquote ""
  ++ FormName part ++ String dquote ";" ++ CRLF ++ CRLF
  ++ (if String.eqb "password" (FormName part) then Data part
      else StrictPolicy (Data part))
  ++ CRLF.

Definition emit_part `{Lib} (boundary : string) (part : Part) : string :=
  if String.eqb (FileName part) "" then emit_field boundary part
  else emit_file boundary part.

(** The error that stops the loop, if a part cannot be copied or is
    empty. *)
Fixpoint first_error (parts : list Part) : option error :=
  match parts with
  | [] => None
  | part :: rest =>
      match CopyErr part with
      | Some err => Some err
      | None => if Len (Data part) <=? 0 then Some errRecreateMultipart
                else first_error rest
      end
  end.

(** The example of the specification: a file part a.txt with the bytes
    hello, sent without a content type, and a field bio with markup. *)
Definition example_parts : list Part :=
  [ {| FormName := "upload"; FileName := "a.txt"; HeaderContentType := "";
       Data := "hello"; CopyErr := None |};
    {| FormName := "bio"; FileName := ""; HeaderContentType := "";
       Data := "<img onerror=x>me"; CopyErr := None |} ].

Definition multipart_request (body : string) : Request :=
  {| Method := "POST"; ContentType := "multipart/form-data; boundary=XY";
     ContentLength := ""; Body := Some body; RawQuery := "" |}.

Definition password_part : Part :=
  {| FormName := "password"; FileName := ""; HeaderContentType := "";
     Data := "<b>x</b>"; CopyErr := None |}.

(** *** Queries *)

(** [v[key]] *)
Fixpoint Values_Get (key : string) (v : Values) : option (list string) :=
  match v with
  | [] => None
  | (k, vs) :: rest => if String.eqb k key then Some vs else Values_Get key rest
  end.

(** What the rewriter leaves under a key that is no skip field: nothing
    when the key had no value, else the sanitized last value alone. *)
Definition rewritten (p : Defender) (items : list string) : option (list string) :=
  match items with
  | [] => None
  | _ => Some [policy p (last items "")]
  end.

Definition get_request (query : string) : Request :=
  {| Method := "GET"; ContentType := ""; ContentLength := ""; Body := None;
     RawQuery := query |}.

(** *** The configured field policy *)

(** What the configured field policy does with the text [x] of field
    [k]. *)
Definition field_policy (p : Defender) (k x : string) : string :=
  if inSkipFields k (skipFields p) then x else policy p x.

(** The claim C1 on the multipart codec, for a body of one field part:
    the text is kept or sanitized as the Defender's skip fields and policy
    say. *)
Definition multipart_consults_defender (L : Lib) : Prop :=
  forall (p : Defender) (c : Request) (ct body boundary : string) (part : Part),
    Body c = Some body ->
    slice_from ct (Index ct "boundary=" + 9) = Ok boundary ->
    @NewReader L body boundary = [part] ->
    FileName part = "" ->
    first_error [part] = None ->
    @HandleMultiPartFormData L p c ct
    = Ok (setBody c
            ("--" ++ boundary ++ CRLF
             ++ "Content-Disposition: form-data; name=" ++ String dquote ""
             ++ FormName part ++ String dquote ";" ++ CRLF ++ CRLF
             ++ field_policy p (FormName part) (Data part) ++ CRLF
             ++ "--" ++ boundary ++ "--" ++ CRLF)).

(** *** Sanitized trees *)

(** The tree the encoder prints: the text of every string and number is
    replaced by its sanitized text, except below a skip field, where the
    value is kept. *)
Fixpoint sanitize_tree (p : Defender) (pol : Policy) (v : value) {struct v} : value :=
  match v with
  | VNil => VNil
  | VBool b => VBool b
  | VNumber n => VNumber (pol n)
  | VString s => VString (pol s)
  | VSlice ss => VSlice (map (sanitize_tree p pol) ss)
  | VMap mp =>
      VMap (map (fun kv =>
                   let '(k, x) := kv in
                   (k, if inSkipFields k (skipFields p) then x
                       else sanitize_tree p (policy p) x)) mp)
  end.

Definition idempotent (pol : Policy) : Prop := forall s, pol (pol s) = pol s.

(** *** Shapes of values and requests *)

Definition is_object (v : value) : bool :=
  match v with
  | VMap _ => true
  | _ => false
  end.

(** The elements of a slice that [unravelSlice] writes. *)
Definition is_written (item : value) : bool :=
  match item with
  | VMap _ | VString _ => true
  | _ => false
  end.

(** What [ConstructJson] writes for one entry, before the comma. *)
Definition entry_text `{Lib} (p : Defender) (kv : string * value) : string :=
  entry_key (fst kv) ++
  (if inSkipFields (fst kv) (skipFields p) then Sprintf_q (snd kv)
   else encode p (policy p) (snd kv)).

(** What [unravelSlice] writes for one written element, before the
    comma. *)
Definition item_text `{Lib} (p : Defender) (pol : Policy) (item : value) : string :=
  match item with
  | VString s => Quote (pol s)
  | _ => encode p (policy p) item
  end.

(** The methods whose body the dispatcher looks at. *)
Definition has_body_method (c : Request) : bool :=
  String.eqb (Method c) "POST" || String.eqb (Method c) "PUT"
  || String.eqb (Method c) "PATCH".

(** *** The first revision of the response filter (filter_xss.go)

    It rewrites every response, whatever its content type, and aborts
    without a status when the body cannot be rewritten. *)



(** *** More bodies *)

(** A key that the form codec can write as it is: every byte is a
    letter, a digit, or one of - _ . ~ *)
Fixpoint plain_key (k : string) : bool :=
  match k with
  | "" => true
  | String c r => negb (shouldEscape c) && plain_key r
  end.

(** A multipart form with a field left empty. *)
Definition empty_field_parts : list Part :=
  [ {| FormName := "name"; FileName := ""; HeaderContentType := "";
       Data := "Ann"; CopyErr := None |};
    {| FormName := "comment"; FileName := ""; HeaderContentType := "";
       Data := ""; CopyErr := None |};
    {| FormName := "bio"; FileName := ""; HeaderContentType := "";
       Data := "<b>x</b>"; CopyErr := None |} ].

(** ** Strings and buffers *)

Lemma sapp_nil_r (s : string) : s ++ "" = s.
Proof. induction s; simpl; congruence. Qed.

Lemma sapp_assoc (a b c : string) : (a ++ b) ++ c = a ++ b ++ c.
Proof. induction a; simpl; congruence. Qed.

Lemma slength_app (a b : string) :
  String.length (a ++ b) = (String.length a + String.length b)%nat.
Proof. induction a; simpl; congruence. Qed.

Lemma substring_prefix (a b : string) :
  substring 0 (String.length a) (a ++ b) = a.
Proof.
  induction a as [|c a IH]; simpl.
  - destruct b; reflexivity.
  - now rewrite IH.
Qed.

Lemma concat_app_nil (l1 l2 : list string) :
  concat "" (l1 ++ l2)%list = concat "" l1 ++ concat "" l2.
Proof.
  induction l1 as [|x l1 IH]; simpl; [reflexivity|].
  destruct l1 as [|y l1].
  - simpl. destruct l2; simpl; [now rewrite sapp_nil_r | reflexivity].
  - simpl in *. rewrite IH. now rewrite sapp_assoc.
Qed.

Lemma concat_cons_nil (x : string) (l : list string) :
  concat "" (x :: l) = x ++ concat "" l.
Proof. exact (concat_app_nil [x] l). Qed.

Lemma Len_nonneg (b : Buffer) : 0 <= Len b.
Proof. unfold Len; lia. Qed.

Lemma Len_app (a b : string) : Len (a ++ b) = Len a + Len b.
Proof. unfold Len; rewrite slength_app; lia. Qed.

(** After at least one write, [Truncate(Len() - 1)] drops the last byte. *)
Lemma Truncate_last (b : Buffer) :
  b <> "" -> Truncate b (Len b - 1) = Ok (drop_last b).
Proof.
  intros Hb. unfold Truncate, drop_last.
  assert (0 < Len b) by (destruct b; [congruence | unfold Len; simpl; lia]).
  destruct (Z.ltb_spec (Len b - 1) 0); [lia|].
  destruct (Z.ltb_spec (Len b) (Len b - 1)); [lia|].
  simpl. do 2 f_equal. unfold Len. lia.
Qed.

Lemma Truncate_empty : Truncate "" (Len "" - 1) = Panic.
Proof. reflexivity. Qed.

Lemma drop_last_snoc (b : string) (c : ascii) : drop_last (b ++ String c "") = b.
Proof.
  unfold drop_last. rewrite slength_app. simpl.
  replace (String.length b + 1 - 1)%nat with (String.length b) by lia.
  apply substring_prefix.
Qed.

Lemma app_not_nil_l (a b : string) : a <> "" -> a ++ b <> "".
Proof. destruct a; simpl; congruence. Qed.

(** ** The encoders in closed form *)

Section Encoders.
Context `{Lib}.
Variable p : Defender.

Lemma ConstructJson_range_app (build : value -> result Buffer) (f : value -> string)
  (mp : Json) (buff : Buffer) :
  Forall (fun kv => build (snd kv) = Ok (f (snd kv))) mp ->
  ConstructJson_range p build mp buff =
  Ok (buff ++ concat ""
        (map (fun kv => entry_key (fst kv) ++
                        (if inSkipFields (fst kv) (skipFields p)
                         then Sprintf_q (snd kv) ++ "," else f (snd kv))) mp)).
Proof.
  intros Hall. revert buff.
  induction Hall as [|[k v] mp Hv _ IH]; intros buff;
    cbn [ConstructJson_range map fst snd].
  - simpl. now rewrite sapp_nil_r.
  - rewrite concat_cons_nil. unfold WriteByte, WriteString, entry_key.
    destruct (inSkipFields k (skipFields p)).
    + rewrite IH. f_equal. now rewrite !sapp_assoc.
    + cbn [snd] in Hv. rewrite Hv. cbn [bind]. rewrite IH. f_equal.
      now rewrite !sapp_assoc.
Qed.

Lemma unravelSlice_range_app (construct : Json -> result Buffer) (g : Json -> string)
  (ss : list value) (pol : Policy) (buff : Buffer) :
  Forall (fun item => match item with
                      | VMap tp => construct tp = Ok (g tp)
                      | _ => True
                      end) ss ->
  unravelSlice_range construct ss pol buff =
  Ok (buff ++ concat ""
        (map (fun item => match item with
                          | VMap tp => g tp ++ ","
                          | VString s => Quote (pol s) ++ ","
                          | _ => ""
                          end) ss)).
Proof.
  intros Hall. revert buff.
  induction Hall as [|item ss Hi _ IH]; intros buff;
    cbn [unravelSlice_range map].
  - simpl. now rewrite sapp_nil_r.
  - rewrite concat_cons_nil. unfold WriteByte, WriteString.
    destruct item; try (rewrite IH; reflexivity).
    + rewrite IH. f_equal. now rewrite !sapp_assoc.
    + rewrite Hi. cbn [bind]. rewrite IH. f_equal. now rewrite !sapp_assoc.
Qed.

Lemma encode_items_ext (pol : Policy) (ss : list value) :
  map (fun item => match item with
                   | VMap tp => encode p (policy p) (VMap tp) ++ ","
                   | VString s => Quote (pol s) ++ ","
                   | _ => ""
                   end) ss
  = map (encode_item p pol) ss.
Proof. apply map_ext. intros []; reflexivity. Qed.

Lemma encode_entries_ext (mp : Json) :
  map (fun kv => entry_key (fst kv) ++
                 (if inSkipFields (fst kv) (skipFields p)
                  then Sprintf_q (snd kv) ++ ","
                  else encode p (policy p) (snd kv) ++ ",")) mp
  = map (encode_entry p) mp.
Proof.
  apply map_ext. intros [k x]. unfold encode_entry. cbn [fst snd].
  destruct (inSkipFields k (skipFields p)); reflexivity.
Qed.

Lemma encode_VSlice (pol : Policy) (ss : list value) :
  encode p pol (VSlice ss)
  = drop_last ("[" ++ concat "" (map (encode_item p pol) ss)) ++ "]".
Proof. reflexivity. Qed.

Lemma encode_VMap (pol : Policy) (mp : Json) :
  encode p pol (VMap mp)
  = drop_last ("{" ++ concat "" (map (encode_entry p) mp)) ++ "}".
Proof.
  cbn [encode]. do 4 f_equal. apply map_ext. intros [k x]. reflexivity.
Qed.

(** Inverting one [bind] that ended in [Ok (bf ++ ",")]. *)
Lemma bind_comma_inv (c : result Buffer) (out : string) :
  bind c (fun bf => Ok (WriteByte (WriteString "" bf) ",")) = Ok (out ++ ",") ->
  c = Ok out.
Proof.
  destruct c as [bf | e |]; cbn [bind]; try discriminate.
  intros Hb. injection Hb as Hb. unfold WriteByte, WriteString in Hb.
  cbn [append] in Hb. apply (f_equal drop_last) in Hb.
  rewrite !drop_last_snoc in Hb. now subst.
Qed.

Lemma buildJsonApplyPolicy_encode (v : value) :
  forall pol, buildJsonApplyPolicy p v pol = Ok (encode p pol v ++ ",").
Proof.
  induction v as [| b | n | s | ss IH | mp IH] using value_nested_ind;
    intros pol; try reflexivity.
  - (* a slice *)
    cbn [buildJsonApplyPolicy]. unfold unravelSlice_with.
    rewrite unravelSlice_range_app
      with (g := fun tp => encode p (policy p) (VMap tp)).
    + rewrite encode_items_ext. cbn [bind].
      rewrite Truncate_last by (cbn; congruence).
      cbn [bind]. rewrite encode_VSlice. reflexivity.
    + apply Forall_impl with (2 := IH). intros [ | | | | | tp] Hi; trivial.
      apply bind_comma_inv. apply (Hi (policy p)).
  - (* a map *)
    cbn [buildJsonApplyPolicy]. unfold ConstructJson_with.
    rewrite ConstructJson_range_app
      with (f := fun x => encode p (policy p) x ++ ",").
    + rewrite encode_entries_ext. cbn [bind].
      rewrite Truncate_last by (cbn; congruence).
      cbn [bind]. rewrite encode_VMap. reflexivity.
    + apply Forall_impl with (2 := IH). intros kv Hkv. apply Hkv.
Qed.

Lemma ConstructJson_encode (mp : Json) :
  ConstructJson p mp = Ok (encode p (policy p) (VMap mp)).
Proof.
  apply bind_comma_inv.
  apply (buildJsonApplyPolicy_encode (VMap mp) (policy p)).
Qed.

Lemma unravelSlice_encode (ss : list value) (pol : Policy) :
  unravelSlice p ss pol = Ok (encode p pol (VSlice ss)).
Proof.
  apply bind_comma_inv.
  apply (buildJsonApplyPolicy_encode (VSlice ss) pol).
Qed.

End Encoders.

(** The JSON encoder returns a buffer for every decoded value: it neither
    fails nor panics. *)
Lemma jsonToStringMap_range_no_error `{Lib} (p : Defender) (jbt : list value) :
  forall multiRec e, jsonToStringMap_range p jbt multiRec <> Err e.
Proof.
  induction jbt as [|n rest IH]; intros multiRec e; cbn [jsonToStringMap_range].
  - discriminate.
  - destruct n; try discriminate.
    rewrite ConstructJson_encode. cbn [bind]. apply IH.
Qed.

Lemma jsonToStringMap_range_nonempty `{Lib} (p : Defender) (jbt : list value) :
  forall multiRec out,
    multiRec <> "" -> jsonToStringMap_range p jbt multiRec = Ok out -> out <> "".
Proof.
  induction jbt as [|n rest IH]; intros multiRec out Hne; cbn [jsonToStringMap_range].
  - intros [= <-]. exact Hne.
  - destruct n; try discriminate.
    rewrite ConstructJson_encode. cbn [bind]. apply IH.
    unfold WriteByte, WriteString. rewrite sapp_assoc. now apply app_not_nil_l.
Qed.

Lemma jsonToStringMap_error `{Lib} (p : Defender) (jsonBod : value) (e : error) :
  jsonToStringMap p jsonBod = Err e -> e = errUnknownContentType.
Proof.
  destruct jsonBod as [| b | n | s | jbt | xmj]; cbn [jsonToStringMap];
    try (intros [= <-]; reflexivity).
  - destruct (jsonToStringMap_range p jbt (WriteByte "" "[")) as [mr | e' |] eqn:Hr;
      cbn [bind]; try discriminate.
    + rewrite Truncate_last; [discriminate|].
      apply (jsonToStringMap_range_nonempty p jbt (WriteByte "" "[") mr);
        [cbn; congruence | exact Hr].
    + now apply jsonToStringMap_range_no_error in Hr.
  - rewrite ConstructJson_encode. discriminate.
Qed.

(** ** Properties of the engine *)

(** C10: whatever options the caller passes to DefaultDefender, the
    Defender it builds has the skip-field list ["password"]: the default
    option is applied last and SetSkipFields overwrites the list, so skip
    fields given by the caller are lost. *)
Theorem DefaultDefender_skipFields `{Lib} (options : list Option) :
  skipFields (DefaultDefender options) = ["password"].
Proof.
  unfold DefaultDefender, NewDefender.
  rewrite fold_left_app. reflexivity.
Qed.

(** The caller's own SetSkipFields is overwritten. *)
Example DefaultDefender_discards_caller_fields `{Lib} :
  skipFields (DefaultDefender [SetSkipFields ["token"; "secret"]]) = ["password"].
Proof. reflexivity. Qed.

(** C3: the encoder of an empty JSON object does not write the two bytes
    of an empty object.  With no entry written, the truncation that is
    meant for the last comma removes the opening brace: ConstructJson
    returns the single byte of the closing brace, and in the same way an
    empty slice is encoded as the closing bracket alone. *)
Theorem ConstructJson_empty_object `{Lib} (p : Defender) (pol : Policy) :
  ConstructJson p [] = Ok "}"
  /\ unravelSlice p [] pol = Ok "]"
  /\ jsonToStringMap p (VSlice []) = Ok "]"
  /\ @BuildNewBody (GoLib []) p "{}" = Ok "}".
Proof. repeat split. Qed.

(** C4: the encoder of a slice drops every element that is neither an
    object nor a string: numbers, booleans, null and nested slices write
    nothing, so a slice of such elements is encoded as the closing bracket
    alone and a mixed slice keeps its strings only. *)
Theorem unravelSlice_drops_scalars `{Lib} (p : Defender) (pol : Policy)
  (n s : string) (b : bool) (ss : list value) :
  unravelSlice p [VNumber n; VBool b; VNil; VSlice ss] pol = Ok "]"
  /\ unravelSlice p [VString s; VNumber n; VBool b; VNil] pol
     = Ok ("[" ++ Quote (pol s) ++ "]")
  /\ @BuildNewBody (GoLib []) GoDefault (js "{'a':['x',1,true,null]}")
     = Ok (js "{'a':['x']}").
Proof.
  split; [reflexivity | split; [|reflexivity]].
  rewrite unravelSlice_encode, encode_VSlice.
  cbn [map encode_item]. rewrite !concat_cons_nil. cbn [concat].
  rewrite !sapp_nil_r, <- sapp_assoc, drop_last_snoc. reflexivity.
Qed.

(** C7: sanitizing is not idempotent on the bytes.  The body with an empty
    object under the key a is rewritten to a text that is no JSON (the
    brace of the empty object is lost), and the second pass over that
    text fails with errNotJson instead of returning the same bytes.  The
    same happens when a slice holds numbers only, and when a key holds a
    double quote, which is written back without its escape. *)
Theorem BuildNewBody_not_idempotent :
  (@BuildNewBody (GoLib []) GoDefault (js "{'a':{}}") = Ok (js "{'a':}}")
   /\ @BuildNewBody (GoLib []) GoDefault (js "{'a':}}") = Err errNotJson)
  /\ (@BuildNewBody (GoLib []) GoDefault (js "{'a':[1]}") = Ok (js "{'a':]}")
      /\ @BuildNewBody (GoLib []) GoDefault (js "{'a':]}") = Err errNotJson)
  /\ (@BuildNewBody (GoLib []) GoDefault (js "{'a\'b':1}") = Ok (js "{'a'b':1}")
      /\ @BuildNewBody (GoLib []) GoDefault (js "{'a'b':1}") = Err errNotJson).
Proof. repeat split. Qed.

(** *** The response path *)

Lemma BodyWriter_Write_all (ws : list string) (body : Buffer) :
  fold_left BodyWriter_Write ws body = body ++ concat "" ws.
Proof.
  revert body. induction ws as [|w ws IH]; intros body.
  - simpl. now rewrite sapp_nil_r.
  - cbn [fold_left]. rewrite IH, concat_cons_nil.
    unfold BodyWriter_Write, WriteString. now rewrite sapp_assoc.
Qed.

(** C9: a response whose content type does not contain application/json
    is forwarded as the handlers wrote it: the real writer receives the
    captured bytes, which are the handlers' writes in order, nothing is
    aborted and the capture buffer is reset. *)
Theorem FilterXSS_passthrough `{Lib} (p : Defender) (h : Handled) :
  Contains (respContentType h) "application/json" = false ->
  FilterXSS p h
  = Ok {| Sent := concat "" (writes h); AbortStatus := None; Captured := "" |}.
Proof.
  intros Hct. unfold FilterXSS. rewrite Hct. cbn [negb].
  now rewrite BodyWriter_Write_all.
Qed.

Lemma FilterXSS_passthrough_text_plain :
  @FilterXSS (GoLib []) GoDefault
    {| writes := ["<b>hi"; "</b> there"]; respContentType := "text/plain" |}
  = Ok {| Sent := "<b>hi</b> there"; AbortStatus := None; Captured := "" |}.
Proof.
  exact (@FilterXSS_passthrough (GoLib []) GoDefault
           {| writes := ["<b>hi"; "</b> there"]; respContentType := "text/plain" |}
           eq_refl).
Defined.

(** *** The JSON pipeline and its errors *)

(** C6, as stated, fails on the body 5: the decoder accepts the number
    and the pipeline fails with the other error. *)
Lemma scalar_body_is_not_errNotJson :
  ~ scalar_fails_with_errNotJson (GoLib []).
Proof.
  intros Hclaim.
  specialize (Hclaim GoDefault (json_request "POST" "1" "5") "5" (VNumber "5")
                eq_refl eq_refl eq_refl).
  discriminate Hclaim.
Qed.

Lemma HandleJson_body `{Lib} (p : Defender) (c : Request) (body : string) :
  HandleJson p (setBody c body)
  = bind (decodeJson body)
      (fun jsonBod => bind (jsonToStringMap p jsonBod)
         (fun buff => Ok (setBody c buff))).
Proof. reflexivity. Qed.

(** C6 (amended): the JSON pipeline fails with errNotJson exactly when
    the decoder rejects the body (malformed or truncated text); a body
    that decodes to a top-level scalar or null fails with the distinct
    error errUnknownContentType; and either error makes removeXSS abort a
    POST, PUT or PATCH request that is routed to the JSON codec. *)
Theorem HandleJson_errors `{Lib} (p : Defender) (c : Request) (body : string) :
  (HandleJson p (setBody c body) = Err errNotJson <-> Decode body = None)
  /\ (forall v, Decode body = Some v -> is_scalar v = true ->
        HandleJson p (setBody c body) = Err errUnknownContentType)
  /\ errUnknownContentType <> errNotJson
  /\ (forall method len e,
        XssRemove p (json_request method len body) = Err e ->
        removeXSS p (json_request method len body) = Aborted).
Proof.
  repeat split.
  - rewrite HandleJson_body. unfold decodeJson.
    destruct (Decode body) as [v|]; [|reflexivity].
    cbn [bind]. destruct (jsonToStringMap p v) as [buff | e |] eqn:Hj;
      cbn [bind]; try discriminate.
    intros [= ->]. apply jsonToStringMap_error in Hj. discriminate.
  - intros Hd. rewrite HandleJson_body. unfold decodeJson. now rewrite Hd.
  - intros v Hd Hs. rewrite HandleJson_body. unfold decodeJson. rewrite Hd.
    destruct v; try discriminate; reflexivity.
  - discriminate.
  - intros method len e He. unfold removeXSS. now rewrite He.
Qed.

(** The three cases on the reference decoder: a truncated body, a
    malformed body and a top-level scalar. *)
Example HandleJson_error_cases :
  @XssRemove (GoLib []) GoDefault (json_request "POST" "5" (js "{'a':"))
  = Err errNotJson
  /\ @XssRemove (GoLib []) GoDefault (json_request "PUT" "7" (js "{'a' 1}"))
     = Err errNotJson
  /\ @XssRemove (GoLib []) GoDefault (json_request "PATCH" "2" "12")
     = Err errUnknownContentType
  /\ @removeXSS (GoLib []) GoDefault (json_request "PATCH" "2" "12") = Aborted.
Proof. repeat split. Qed.

(** *** The form codec *)

Lemma HandleXFormEncoded_range_app `{Lib} (p : Defender) (m : Values) :
  Forall (fun kv => snd kv <> []) m ->
  forall bq,
    HandleXFormEncoded_range p m bq
    = Ok (bq ++ concat "" (map (fun kv => form_pair p kv ++ "&") m)).
Proof.
  induction 1 as [|[k v] m Hv _ IH]; intros bq;
    cbn [HandleXFormEncoded_range map].
  - simpl. now rewrite sapp_nil_r.
  - destruct v as [|v0 v]; [now elim Hv|].
    cbn [index0 bind]. rewrite IH, concat_cons_nil.
    unfold form_pair, WriteByte, WriteString. cbn [fst snd hd].
    destruct (inSkipFields k (skipFields p)); now rewrite !sapp_assoc.
Qed.

Lemma drop_last_app (a b : string) : b <> "" -> drop_last (a ++ b) = a ++ drop_last b.
Proof.
  intros Hb. unfold drop_last. rewrite slength_app.
  destruct b as [|c b]; [congruence|]. cbn [String.length].
  replace (String.length a + S (String.length b) - 1)%nat
    with (String.length a + String.length b)%nat by lia.
  replace (S (String.length b) - 1)%nat with (String.length b) by lia.
  generalize (String c b) as t. generalize (String.length b) as n.
  induction a as [|x a IH]; intros n t; simpl.
  - reflexivity.
  - now rewrite IH.
Qed.

Lemma drop_last_separated (l : list string) :
  l <> [] ->
  drop_last (concat "" (map (fun x => x ++ "&") l)) = concat "&" l.
Proof.
  induction l as [|x l IH]; [congruence|]. intros _.
  cbn [map]. rewrite concat_cons_nil. destruct l as [|y l].
  - simpl. rewrite sapp_nil_r. apply drop_last_snoc.
  - rewrite sapp_assoc, !drop_last_app.
    + rewrite IH by discriminate. reflexivity.
    + cbn [map]. rewrite concat_cons_nil, sapp_assoc.
      destruct y; discriminate.
    + apply app_not_nil_l. discriminate.
Qed.

(** The end of the form codec, once the body is parsed. *)
Lemma HandleXFormEncoded_finish `{Lib} (p : Defender) (c : Request)
  (buf : string) (m : Values) :
  Forall (fun kv => snd kv <> []) m ->
  (bq <- HandleXFormEncoded_range p m "" ;;
   if 1 <? Len bq then
     bq <- Truncate bq (Len bq - 1) ;; Ok (setBody c bq)
   else Ok (setBody c buf))
  = Ok (setBody c (match m with
                   | [] => buf
                   | _ => concat "&" (map (form_pair p) m)
                   end)).
Proof.
  intros Hvals. rewrite HandleXFormEncoded_range_app by assumption.
  cbn [bind]. destruct m as [|kv m]; [reflexivity|].
  set (bq := "" ++ _).
  assert (Hlen : 1 < Len bq).
  { subst bq. cbn [map]. rewrite concat_cons_nil. unfold form_pair.
    rewrite !Len_app. change (Len "=") with 1. change (Len "&") with 1.
    change (Len "") with 0.
    repeat match goal with
           | |- context [Len ?x] =>
               lazymatch goal with
               | _ : 0 <= Len x |- _ => fail
               | _ => pose proof (Len_nonneg x)
               end
           end.
    lia. }
  destruct (Z.ltb_spec 1 (Len bq)); [|lia].
  rewrite Truncate_last by (intros E; rewrite E in Hlen; discriminate Hlen).
  cbn [bind]. subst bq. cbn [append].
  rewrite <- (map_map (form_pair p) (fun x => x ++ "&")).
  rewrite drop_last_separated by discriminate. reflexivity.
Qed.

(** C8: when the parse of a form body yields no key, the body is passed
    through as it was; when it yields keys (each with a value, as
    ParseQuery builds them), the new body is the pairs joined by an
    ampersand, with no separator after the last one. *)
Theorem HandleXFormEncoded_body `{Lib} (p : Defender) (c : Request)
  (buf : string) (m : Values) :
  Body c = Some buf ->
  ParseQuery buf = (m, None) ->
  Forall (fun kv => snd kv <> []) m ->
  HandleXFormEncoded p c
  = Ok (setBody c (match m with
                   | [] => buf
                   | _ => concat "&" (map (form_pair p) m)
                   end)).
Proof.
  intros Hbody Hparse Hvals. unfold HandleXFormEncoded.
  rewrite Hbody, Hparse. now apply HandleXFormEncoded_finish.
Qed.

Lemma HandleXFormEncoded_body_examples :
  @HandleXFormEncoded (GoLib []) GoDefault
     (form_request "name=%3Cb%3Ex%3C%2Fb%3E&password=%3Cb%3E")
  = Ok (form_request "name=x&password=%3Cb%3E")
  /\ @HandleXFormEncoded (GoLib []) GoDefault (form_request "&&")
     = Ok (form_request "&&").
Proof.
  split.
  - apply (@HandleXFormEncoded_body (GoLib []) GoDefault
             (form_request "name=%3Cb%3Ex%3C%2Fb%3E&password=%3Cb%3E")
             "name=%3Cb%3Ex%3C%2Fb%3E&password=%3Cb%3E"
             [("name", ["<b>x</b>"]); ("password", ["<b>"])]
             eq_refl eq_refl).
    repeat constructor; discriminate.
  - apply (@HandleXFormEncoded_body (GoLib []) GoDefault
             (form_request "&&") "&&" [] eq_refl eq_refl).
    constructor.
Defined.

(** *** The multipart codec *)

Lemma HandleMultiPartFormData_loop_emit `{Lib} (boundary : string) (fuel : nat) :
  forall (reader : list Part) (multiPrtFrm : Buffer),
    HandleMultiPartFormData_loop fuel reader boundary multiPrtFrm
    = match first_error (firstn fuel reader) with
      | Some err => Err err
      | None => Ok (multiPrtFrm
                    ++ concat "" (map (emit_part boundary) (firstn fuel reader)))
      end.
Proof.
  induction fuel as [|fuel IH]; intros reader buf.
  - simpl. now rewrite sapp_nil_r.
  - destruct reader as [|part reader].
    + simpl. now rewrite sapp_nil_r.
    + cbn [HandleMultiPartFormData_loop firstn first_error map].
      destruct (CopyErr part); [reflexivity|].
      destruct (Len (Data part) <=? 0); [reflexivity|].
      rewrite IH. destruct (first_error (firstn fuel reader)); [reflexivity|].
      rewrite concat_cons_nil. f_equal. unfold emit_part, emit_file, emit_field.
      unfold WriteString.
      destruct (FileName part =? "")%string; cbn [negb];
        [destruct ("password" =? FormName part)%string|];
        now rewrite !sapp_assoc.
Qed.

(** C5: the multipart codec in closed form.  The new body is the
    concatenation, over the first hundred parts the reader yields, of what
    each part emits, followed by the closing delimiter; a part with a
    file name emits [emit_file], that is its headers, with
    application/octet-stream when the part has no content type, and then
    its bytes exactly as read.  The bytes of a file part reach no
    sanitizer: [emit_file] calls no library.  The handler fails only when
    a part cannot be copied or is empty. *)
Theorem HandleMultiPartFormData_emits `{Lib} (p : Defender) (c : Request)
  (reqContentType : string) :
  HandleMultiPartFormData p c reqContentType
  = match Body c with
    | None => Panic
    | Some ioreader =>
        boundary <- slice_from reqContentType (Index reqContentType "boundary=" + 9) ;;
        let parts := firstn 100 (NewReader ioreader boundary) in
        match first_error parts with
        | Some err => Err err
        | None =>
            Ok (setBody c
                  (concat ""
                     (map (fun part =>
                             if String.eqb (FileName part) ""
                             then emit_field boundary part
                             else emit_file boundary part) parts)
                   ++ "--" ++ boundary ++ "--" ++ CRLF))
        end
    end.
Proof.
  unfold HandleMultiPartFormData. destruct (Body c) as [ioreader|]; [|reflexivity].
  destruct (slice_from reqContentType _) as [boundary | e |]; cbn [bind];
    try reflexivity.
  rewrite HandleMultiPartFormData_loop_emit.
  destruct (first_error _); reflexivity.
Qed.

Example HandleMultiPartFormData_example :
  @HandleMultiPartFormData (GoLib example_parts) GoDefault
     (multipart_request "(body)") "multipart/form-data; boundary=XY"
  = Ok (multipart_request
          ("--XY" ++ CRLF
           ++ js "Content-Disposition: form-data; name='upload'; filename='a.txt';"
           ++ CRLF ++ "Content-Type: application/octet-stream" ++ CRLF ++ CRLF
           ++ "hello" ++ CRLF
           ++ "--XY" ++ CRLF
           ++ js "Content-Disposition: form-data; name='bio';" ++ CRLF ++ CRLF
           ++ "me" ++ CRLF
           ++ "--XY--" ++ CRLF)).
Proof. reflexivity. Qed.

(** *** The query rewriter *)

Lemma Values_Get_Del_same (key : string) (v : Values) :
  Values_Get key (Values_Del key v) = None.
Proof.
  unfold Values_Del.
  induction v as [|[k vs] v IH]; [reflexivity|]. cbn [filter fst].
  destruct (String.eqb_spec k key) as [->|Hne]; cbn [negb].
  - exact IH.
  - cbn [Values_Get]. destruct (String.eqb_spec k key); [contradiction|exact IH].
Qed.

Lemma Values_Get_Del_other (k key : string) (v : Values) :
  k <> key -> Values_Get k (Values_Del key v) = Values_Get k v.
Proof.
  intros Hne. unfold Values_Del.
  induction v as [|[k' vs] v IH]; [reflexivity|].
  cbn [filter fst Values_Get].
  destruct (String.eqb_spec k' key) as [->|Hk']; cbn [negb].
  - destruct (String.eqb_spec key k); [congruence|exact IH].
  - cbn [Values_Get]. now rewrite IH.
Qed.

Lemma Values_Get_Set_same (key x : string) (v : Values) :
  Values_Get key (Values_Set key x v) = Some [x].
Proof.
  induction v as [|[k vs] v IH]; cbn [Values_Set Values_Get].
  - now rewrite String.eqb_refl.
  - destruct (String.eqb_spec k key) as [->|Hne]; cbn [Values_Get].
    + now rewrite String.eqb_refl.
    + destruct (String.eqb_spec k key); [contradiction|exact IH].
Qed.

Lemma Values_Get_Set_other (k key x : string) (v : Values) :
  k <> key -> Values_Get k (Values_Set key x v) = Values_Get k v.
Proof.
  intros Hne. induction v as [|[k' vs] v IH]; cbn [Values_Set Values_Get].
  - destruct (String.eqb_spec key k); [congruence|reflexivity].
  - destruct (String.eqb_spec k' key) as [->|Hk']; cbn [Values_Get].
    + destruct (String.eqb_spec key k); [congruence|reflexivity].
    + now rewrite IH.
Qed.

Lemma HandleGETRequest_items_same (p : Defender) (key : string)
  (items : list string) :
  forall qp,
    Values_Get key (HandleGETRequest_items p key items qp)
    = match items with
      | [] => Values_Get key qp
      | _ => Some [policy p (last items "")]
      end.
Proof.
  unfold HandleGETRequest_items.
  induction items as [|item items IH]; intros qp; [reflexivity|].
  cbn [fold_left]. rewrite IH. destruct items as [|item' items].
  - apply Values_Get_Set_same.
  - reflexivity.
Qed.

Lemma HandleGETRequest_items_other (p : Defender) (k key : string)
  (items : list string) :
  k <> key ->
  forall qp, Values_Get k (HandleGETRequest_items p key items qp) = Values_Get k qp.
Proof.
  intros Hne. unfold HandleGETRequest_items.
  induction items as [|item items IH]; intros qp; [reflexivity|].
  cbn [fold_left]. rewrite IH. now apply Values_Get_Set_other.
Qed.

Lemma fieldToSkip_get_fold (key : string) (fields : list string) :
  forall m,
    fieldToSkip_get (fold_left (fun m fts => (fts, true) :: m) fields m) key
    = inSkipFields key fields || fieldToSkip_get m key.
Proof.
  induction fields as [|fts fields IH]; intros m; [reflexivity|].
  cbn [fold_left inSkipFields]. rewrite IH. cbn [fieldToSkip_get].
  destruct (String.eqb key fts); [apply orb_true_r | reflexivity].
Qed.

Lemma fieldToSkip_get_of (key : string) (fields : list string) :
  fieldToSkip_get (fieldToSkip_of fields) key = inSkipFields key fields.
Proof.
  unfold fieldToSkip_of. rewrite fieldToSkip_get_fold. apply orb_false_r.
Qed.

Lemma Values_Get_absent (key : string) (v : Values) :
  ~ In key (map fst v) -> Values_Get key v = None.
Proof.
  induction v as [|[k vs] v IH]; [reflexivity|]. cbn [map fst In Values_Get].
  intros Hnin. destruct (String.eqb_spec k key); [tauto|]. apply IH. tauto.
Qed.

(** The outer loop, key by key: a skip field keeps what it had, any other
    key met by the loop is left with [rewritten]. *)
Lemma HandleGETRequest_range_get (p : Defender) (todo : Values) :
  NoDup (map fst todo) ->
  forall qp key,
    Values_Get key
      (HandleGETRequest_range p (fieldToSkip_of (skipFields p)) todo qp)
    = match Values_Get key todo with
      | Some items =>
          if inSkipFields key (skipFields p) then Values_Get key qp
          else rewritten p items
      | None => Values_Get key qp
      end.
Proof.
  induction todo as [|[k items] todo IH]; intros Hnd qp key; [reflexivity|].
  cbn [map fst] in Hnd. inversion Hnd as [|? ? Hnin Hnd']; subst.
  cbn [HandleGETRequest_range Values_Get]. rewrite fieldToSkip_get_of.
  destruct (String.eqb_spec k key) as [->|Hne].
  - destruct (inSkipFields key (skipFields p)) eqn:Hskip.
    + rewrite IH by assumption. now rewrite (Values_Get_absent key todo).
    + rewrite IH by assumption. rewrite (Values_Get_absent key todo) by assumption.
      rewrite HandleGETRequest_items_same. unfold rewritten.
      destruct items; [apply Values_Get_Del_same | reflexivity].
  - destruct (inSkipFields k (skipFields p)).
    + now rewrite IH.
    + rewrite IH by assumption.
      rewrite HandleGETRequest_items_other, Values_Get_Del_other by congruence.
      reflexivity.
Qed.

(** C2: the query rewriter does not keep the values of a parameter that
    occurs several times.  For each value of the key it calls Set, which
    replaces the list, so every key that is no skip field is left with
    one value, the sanitized last one: a key with the values a and b
    holds the sanitized b alone, and the query q=a&q=b&id=5 is rewritten
    to id=5&q=b. *)
Theorem HandleGETRequest_keeps_last_value `{Lib} (p : Defender) :
  (forall entries key items,
      NoDup (map fst entries) ->
      Values_Get key entries = Some items ->
      inSkipFields key (skipFields p) = false ->
      Values_Get key
        (HandleGETRequest_range p (fieldToSkip_of (skipFields p)) entries entries)
      = match items with
        | [] => None
        | _ => Some [policy p (last items "")]
        end)
  /\ (forall pol key a b,
        HandleGETRequest_range (NewDefender pol []) (fieldToSkip_of [])
          [(key, [a; b])] [(key, [a; b])] = [(key, [pol b])])
  /\ @HandleGETRequest (GoLib []) GoDefault (get_request "q=a&q=b&id=5")
     = Ok (get_request "id=5&q=b").
Proof.
  split; [|split; [|reflexivity]].
  - intros entries key items Hnd Hget Hskip.
    rewrite HandleGETRequest_range_get by assumption.
    now rewrite Hget, Hskip.
  - intros pol key a b.
    cbn. rewrite !String.eqb_refl. cbn. now rewrite String.eqb_refl.
Qed.

(** *** Which policy each codec consults *)

(** C1, as stated, fails on the multipart codec: a Defender built with no
    skip field and a tag-stripping policy leaves the markup of the field
    password in place, although the field is not in its skip fields. *)
Lemma multipart_ignores_defender :
  ~ multipart_consults_defender (GoLib [password_part]).
Proof.
  intros Hclaim.
  specialize (Hclaim (NewDefender strip_tags []) (multipart_request "(body)")
                "multipart/form-data; boundary=XY" "(body)" "XY" password_part
                eq_refl eq_refl eq_refl eq_refl eq_refl).
  discriminate Hclaim.
Qed.

(** C1 (amended): the JSON codec, the form codec and the query rewriter
    decide between keeping and sanitizing by the Defender's skipFields and
    sanitize with the Defender's policy; the multipart codec consults
    neither: its result is the same for every Defender, the only field it
    keeps is the one named password, and it sanitizes with a fresh strict
    policy. *)
Theorem codecs_and_the_field_policy `{Lib} (p : Defender) :
  (* JSON: one turn of the loop of ConstructJson *)
  (forall k x mp buff,
      ConstructJson_range p (fun v => buildJsonApplyPolicy p v (policy p))
        ((k, x) :: mp) buff
      = ConstructJson_range p (fun v => buildJsonApplyPolicy p v (policy p)) mp
          (buff ++ entry_key k
           ++ (if inSkipFields k (skipFields p) then Sprintf_q x
               else encode p (policy p) x) ++ ","))
  /\ (forall k s, encode_entry p (k, VString s)
                  = entry_key k ++ Quote (field_policy p k s) ++ ",")
  (* form *)
  /\ (forall m, Forall (fun kv => snd kv <> []) m ->
        HandleXFormEncoded_range p m ""
        = Ok (concat ""
                (map (fun kv => fst kv ++ "="
                                ++ QueryEscape (field_policy p (fst kv) (hd "" (snd kv)))
                                ++ "&") m)))
  (* query *)
  /\ (forall entries key, NoDup (map fst entries) ->
        Values_Get key
          (HandleGETRequest_range p (fieldToSkip_of (skipFields p)) entries entries)
        = match Values_Get key entries with
          | Some items =>
              if inSkipFields key (skipFields p) then Some items
              else rewritten p items
          | None => None
          end)
  (* multipart *)
  /\ (forall p' c ct,
        HandleMultiPartFormData p c ct = HandleMultiPartFormData p' c ct)
  /\ (forall boundary part,
        emit_part boundary part
        = if String.eqb (FileName part) "" then
            "--" ++ boundary ++ CRLF
            ++ "Content-Disposition: form-data; name=" ++ String dquote ""
            ++ FormName part ++ String dquote ";" ++ CRLF ++ CRLF
            ++ (if String.eqb "password" (FormName part) then Data part
                else StrictPolicy (Data part))
            ++ CRLF
          else emit_file boundary part).
Proof.
  repeat apply conj.
  - intros k x mp buff. cbn [ConstructJson_range].
    unfold WriteByte, WriteString, entry_key.
    destruct (inSkipFields k (skipFields p)).
    + f_equal. now rewrite !sapp_assoc.
    + rewrite buildJsonApplyPolicy_encode. cbn [bind]. f_equal.
      now rewrite !sapp_assoc.
  - intros k s. unfold encode_entry, field_policy. cbn [fst snd].
    destruct (inSkipFields k (skipFields p)); reflexivity.
  - intros m Hm. rewrite HandleXFormEncoded_range_app by assumption.
    cbn [append]. do 2 f_equal. apply map_ext. intros [k v].
    unfold form_pair, field_policy. cbn [fst snd].
    destruct (inSkipFields k (skipFields p)); now rewrite !sapp_assoc.
  - intros entries key Hnd. rewrite HandleGETRequest_range_get by assumption.
    destruct (Values_Get key entries) eqn:Hget; reflexivity.
  - reflexivity.
  - reflexivity.
Qed.

(** *** Further properties *)

(** On a document whose objects and arrays are not empty and whose arrays
    hold strings and objects only, a second pass that visits the keys in
    the same order returns the bytes of the first. *)
Example BuildNewBody_second_pass :
  @BuildNewBody (GoLib []) GoDefault
     (js "{'name':'<b>x</b>','n':12.50,'tags':['<i>a</i>',{'k':null}],'ok':true}")
  = Ok (js "{'name':'x','n':12.50,'tags':['a',{'k':null}],'ok':true}")
  /\ @BuildNewBody (GoLib []) GoDefault
       (js "{'name':'x','n':12.50,'tags':['a',{'k':null}],'ok':true}")
     = Ok (js "{'name':'x','n':12.50,'tags':['a',{'k':null}],'ok':true}").
Proof. split; reflexivity. Qed.

(** The JSON encoder never fails: for every decoded value each of the
    three encoding functions returns a buffer, neither an error nor a
    panic. *)
Theorem JSON_encoder_total `{Lib} (p : Defender) (pol : Policy) :
  (forall v, exists out, buildJsonApplyPolicy p v pol = Ok out)
  /\ (forall mp, exists out, ConstructJson p mp = Ok out)
  /\ (forall ss, exists out, unravelSlice p ss pol = Ok out).
Proof.
  repeat split.
  - intros v. eexists. apply buildJsonApplyPolicy_encode.
  - intros mp. eexists. apply ConstructJson_encode.
  - intros ss. eexists. apply unravelSlice_encode.
Qed.

(** A string under a skip field is written quoted and unsanitized. *)
Theorem ConstructJson_skip_field_verbatim `{Lib} (p : Defender) (k s : string) :
  inSkipFields k (skipFields p) = true ->
  ConstructJson p [(k, VString s)] = Ok ("{" ++ entry_key k ++ Quote s ++ "}").
Proof.
  intros Hskip. rewrite ConstructJson_encode, encode_VMap.
  cbn [map]. unfold encode_entry. cbn [fst snd]. rewrite Hskip.
  cbn [concat Sprintf_q printValue_q].
  rewrite <- !sapp_assoc, drop_last_snoc. reflexivity.
Qed.

Lemma ConstructJson_skip_field_password :
  @ConstructJson (GoLib []) GoDefault [("password", VString "<b>x</b>")]
  = Ok (js "{'password':'<b>x</b>'}").
Proof.
  exact (@ConstructJson_skip_field_verbatim (GoLib []) GoDefault
           "password" "<b>x</b>" eq_refl).
Defined.

(** A request whose method is none of POST, PUT, PATCH and GET passes
    through unchanged. *)
Theorem XssRemove_other_method `{Lib} (p : Defender) (c : Request) :
  Method c <> "POST" -> Method c <> "PUT" -> Method c <> "PATCH" ->
  Method c <> "GET" ->
  XssRemove p c = Ok c /\ removeXSS p c = Next c.
Proof.
  intros H1 H2 H3 H4. unfold removeXSS, XssRemove.
  apply String.eqb_neq in H1, H2, H3, H4. rewrite H1, H2, H3, H4.
  split; reflexivity.
Qed.

Lemma XssRemove_other_method_DELETE :
  let c := {| Method := "DELETE"; ContentType := "application/json";
              ContentLength := "9"; Body := Some (js "{'a':{}}");
              RawQuery := "q=%3Cb%3E" |} in
  @XssRemove (GoLib []) GoDefault c = Ok c
  /\ @removeXSS (GoLib []) GoDefault c = Next c.
Proof.
  intros c.
  apply (@XssRemove_other_method (GoLib []) GoDefault c); discriminate.
Defined.

(** The reference parser gives every key at least one value, which is
    what the form codec relies on when it reads the first one. *)
Lemma Values_Add_nonempty (key value : string) (m : Values) :
  Forall (fun kv => snd kv <> []) m ->
  Forall (fun kv => snd kv <> []) (Values_Add key value m).
Proof.
  induction 1 as [|[k vs] m Hk Hm IH]; cbn [Values_Add].
  - constructor; [discriminate | constructor].
  - destruct (String.eqb k key).
    + constructor; [|exact Hm]. cbn [snd]. destruct vs; discriminate.
    + constructor; [exact Hk | exact IH].
Qed.

Lemma parseQuery_step_nonempty (st : Values * option error) (key : string) :
  Forall (fun kv => snd kv <> []) (fst st) ->
  Forall (fun kv => snd kv <> []) (fst (parseQuery_step st key)).
Proof.
  destruct st as [m err]. cbn [fst]. intros Hm. unfold parseQuery_step.
  destruct (has_byte ";" key); [exact Hm|].
  destruct (String.eqb key ""); [exact Hm|].
  destruct (Cut "=" key) as [k v].
  destruct (GoQueryUnescape k); [|exact Hm].
  destruct (GoQueryUnescape v); [|exact Hm].
  cbn [fst]. now apply Values_Add_nonempty.
Qed.

Lemma GoParseQuery_nonempty (query : string) :
  Forall (fun kv => snd kv <> []) (fst (GoParseQuery query)).
Proof.
  unfold GoParseQuery.
  assert (Hgen : forall segs st,
             Forall (fun kv => snd kv <> []) (fst st) ->
             Forall (fun kv => snd kv <> [])
                    (fst (fold_left parseQuery_step segs st))).
  { induction segs as [|seg segs IH]; intros st Hst; [exact Hst|].
    cbn [fold_left]. apply IH. now apply parseQuery_step_nonempty. }
  apply Hgen. constructor.
Qed.

(** The form codec over the reference parser: whatever the body, a parse
    without error gives the pairs joined by ampersands, or the body itself
    when there is no pair. *)
Theorem HandleXFormEncoded_GoLib (parts : list Part) (p : Defender)
  (c : Request) (buf : string) :
  Body c = Some buf ->
  @HandleXFormEncoded (GoLib parts) p c
  = match GoParseQuery buf with
    | (_, Some uerr) => Err uerr
    | ([], None) => Ok (setBody c buf)
    | (m, None) => Ok (setBody c (concat "&" (map (@form_pair (GoLib parts) p) m)))
    end.
Proof.
  intros Hbody. pose proof (GoParseQuery_nonempty buf) as Hne.
  unfold HandleXFormEncoded. rewrite Hbody. cbn [ParseQuery GoLib].
  destruct (GoParseQuery buf) as [m [uerr|]]; [destruct m; reflexivity|].
  cbn [fst] in Hne.
  rewrite (@HandleXFormEncoded_finish (GoLib parts) p c buf m Hne).
  destruct m; reflexivity.
Qed.

Lemma HandleXFormEncoded_GoLib_example :
  @HandleXFormEncoded (GoLib []) GoDefault
     (form_request "tag=%3Ci%3Ea&tag=b&password=%3Cscript%3E")
  = Ok (form_request "tag=a&password=%3Cscript%3E").
Proof.
  exact (HandleXFormEncoded_GoLib [] GoDefault
           (form_request "tag=%3Ci%3Ea&tag=b&password=%3Cscript%3E")
           "tag=%3Ci%3Ea&tag=b&password=%3Cscript%3E" eq_refl).
Defined.

(** *** Encoding a tree that is already sanitized *)

Lemma encode_sanitize_tree `{Lib} (p : Defender) :
  idempotent (policy p) ->
  forall v pol, idempotent pol ->
    encode p pol (sanitize_tree p pol v) = encode p pol v.
Proof.
  intros Hp.
  induction v as [| b | n | s | ss IH | mp IH] using value_nested_ind;
    intros pol Hpol; cbn [sanitize_tree].
  - reflexivity.
  - reflexivity.
  - cbn [encode]. apply Hpol.
  - cbn [encode]. now rewrite Hpol.
  - rewrite !encode_VSlice, map_map. do 4 f_equal.
    apply map_ext_Forall. apply Forall_impl with (2 := IH).
    intros item Hitem. destruct item; cbn [sanitize_tree encode_item]; trivial.
    + now rewrite Hpol.
    + f_equal. apply (Hitem (policy p) Hp).
  - rewrite !encode_VMap, map_map. do 4 f_equal.
    apply map_ext_Forall. apply Forall_impl with (2 := IH).
    intros [k x] Hx. unfold encode_entry. cbn [fst snd] in *.
    destruct (inSkipFields k (skipFields p)); [reflexivity|].
    now rewrite (Hx (policy p) Hp).
Qed.

(** Encoding is idempotent on trees: for an idempotent policy, the
    encoder writes for the sanitized tree of an object the bytes it
    writes for the object itself. *)
Theorem ConstructJson_sanitize_tree `{Lib} (p : Defender) (mp : Json) :
  idempotent (policy p) ->
  ConstructJson p
    (map (fun kv => (fst kv, if inSkipFields (fst kv) (skipFields p) then snd kv
                             else sanitize_tree p (policy p) (snd kv))) mp)
  = ConstructJson p mp.
Proof.
  intros Hp. rewrite !ConstructJson_encode.
  rewrite <- (encode_sanitize_tree p Hp (VMap mp) (policy p) Hp).
  cbn [sanitize_tree]. do 3 f_equal. apply map_ext. now intros [k x].
Qed.

Lemma strip_tags_no_markup (s : string) :
  has_byte "<" s = false -> strip_tags_from false s = s.
Proof.
  induction s as [|c s IH]; [reflexivity|]. cbn [has_byte strip_tags_from].
  destruct (Ascii.eqb c "<"); [discriminate|]. cbn [orb].
  intros Hs. now rewrite IH.
Qed.

Lemma strip_tags_from_clean (s : string) :
  forall in_tag, has_byte "<" (strip_tags_from in_tag s) = false.
Proof.
  induction s as [|c s IH]; intros in_tag; [destruct in_tag; reflexivity|].
  cbn [strip_tags_from]. destruct in_tag; [apply IH|].
  destruct (Ascii.eqb c "<") eqn:Hc; [apply IH|].
  cbn [has_byte]. rewrite Hc. apply IH.
Qed.

Lemma strip_tags_idempotent : idempotent strip_tags.
Proof.
  intros s. unfold strip_tags. apply strip_tags_no_markup, strip_tags_from_clean.
Qed.

Lemma ConstructJson_sanitize_tree_example :
  @ConstructJson (GoLib []) GoDefault
     [("name", VString "x"); ("password", VString "<b>y</b>")]
  = @ConstructJson (GoLib []) GoDefault
      [("name", VString "<b>x</b>"); ("password", VString "<b>y</b>")].
Proof.
  exact (@ConstructJson_sanitize_tree (GoLib []) GoDefault
           [("name", VString "<b>x</b>"); ("password", VString "<b>y</b>")]
           strip_tags_idempotent).
Defined.

(** ** More about the engine *)

(** *** Options *)

(** Options compose from left to right: the last SetSkipFields and the
    last SetPolicy win, neither touches the field of the other, and
    DefaultDefender, which appends only a SetSkipFields, leaves the policy
    to the caller's options. *)
Theorem options_compose `{Lib} (pol q : Policy) (ss : list string)
  (options : list Option) :
  skipFields (NewDefender pol (options ++ [SetSkipFields ss])) = ss
  /\ policy (NewDefender pol (options ++ [SetPolicy q])) = q
  /\ policy (NewDefender pol (options ++ [SetSkipFields ss]))
     = policy (NewDefender pol options)
  /\ skipFields (NewDefender pol (options ++ [SetPolicy q]))
     = skipFields (NewDefender pol options)
  /\ policy (DefaultDefender options) = policy (NewDefender StrictPolicy options)
  /\ policy (DefaultDefender (options ++ [SetPolicy q])) = q.
Proof.
  unfold DefaultDefender, NewDefender.
  rewrite !fold_left_app. repeat split.
Qed.

(** *** Skip fields *)

Lemma inSkipFields_In (k : string) (fields : list string) :
  inSkipFields k fields = true <-> In k fields.
Proof.
  induction fields as [|fts fields IH]; cbn [inSkipFields In].
  - split; [discriminate | tauto].
  - destruct (String.eqb_spec k fts) as [->|Hne].
    + split; auto.
    + rewrite IH. split; [auto | intros [E|Hin]; [congruence | exact Hin]].
Qed.

(** The codecs agree on what a skip field is: the loop with its break
    (JSON and form codecs) and the map built by the query rewriter both
    decide exact membership of the key in the skip-field list, and so
    neither sees a key that differs by case or by a prefix. *)
Theorem skip_field_is_membership (k : string) (fields : list string) :
  (inSkipFields k fields = true <-> In k fields)
  /\ (fieldToSkip_get (fieldToSkip_of fields) k = true <-> In k fields).
Proof.
  split; [apply inSkipFields_In|].
  unfold fieldToSkip_of.
  rewrite fieldToSkip_get_fold, orb_false_r. apply inSkipFields_In.
Qed.

(** *** The framing of objects and slices *)

Lemma drop_last_joined (sep : ascii) (l : list string) :
  l <> [] ->
  drop_last (concat "" (map (fun x => x ++ String sep "") l))
  = concat (String sep "") l.
Proof.
  induction l as [|x l IH]; [congruence|]. intros _.
  cbn [map]. rewrite concat_cons_nil. destruct l as [|y l].
  - simpl. rewrite sapp_nil_r. apply drop_last_snoc.
  - rewrite sapp_assoc, !drop_last_app.
    + rewrite IH by discriminate. reflexivity.
    + cbn [map]. rewrite concat_cons_nil, sapp_assoc.
      destruct y; discriminate.
    + apply app_not_nil_l. discriminate.
Qed.

Lemma concat_skip_empty (f : value -> string) (keep : value -> bool)
  (ss : list value) :
  (forall x, keep x = false -> f x = "") ->
  concat "" (map f ss) = concat "" (map f (filter keep ss)).
Proof.
  intros Hf. induction ss as [|x ss IH]; [reflexivity|].
  cbn [map filter]. destruct (keep x) eqn:Hk.
  - cbn [map]. now rewrite !concat_cons_nil, IH.
  - rewrite concat_cons_nil, (Hf x Hk). exact IH.
Qed.

(** An object with at least one entry is written as its entries between
    braces, separated by commas, with no comma after the last one; a
    slice with at least one object or string is written as those elements
    between brackets, separated by commas, and its other elements leave
    no trace. *)
Theorem ConstructJson_joined `{Lib} (p : Defender) :
  (forall mp, mp <> [] ->
     ConstructJson p mp = Ok ("{" ++ concat "," (map (entry_text p) mp) ++ "}"))
  /\ (forall ss pol, filter is_written ss <> [] ->
        unravelSlice p ss pol
        = Ok ("[" ++ concat "," (map (item_text p pol) (filter is_written ss))
                  ++ "]")).
Proof.
  split.
  - intros mp Hmp. rewrite ConstructJson_encode, encode_VMap.
    replace (map (encode_entry p) mp)
      with (map (fun x => x ++ ",") (map (entry_text p) mp)).
    + rewrite drop_last_app.
      * rewrite drop_last_joined; [now rewrite sapp_assoc|].
        destruct mp; [congruence | discriminate].
      * destruct mp as [|kv mp]; [congruence|]. cbn [map].
        rewrite concat_cons_nil, sapp_assoc.
        destruct (entry_text p kv); discriminate.
    + rewrite map_map. apply map_ext. intros kv.
      unfold entry_text, encode_entry. now rewrite !sapp_assoc.
  - intros ss pol Hss. rewrite unravelSlice_encode, encode_VSlice.
    rewrite (concat_skip_empty (encode_item p pol) is_written)
      by (intros []; cbn; congruence).
    replace (map (encode_item p pol) (filter is_written ss))
      with (map (fun x => x ++ ",") (map (item_text p pol) (filter is_written ss))).
    + rewrite drop_last_app.
      * rewrite drop_last_joined by (intros E; apply map_eq_nil in E; contradiction).
        now rewrite sapp_assoc.
      * destruct (filter is_written ss) as [|x l]; [congruence|]. cbn [map].
        rewrite concat_cons_nil, sapp_assoc.
        destruct (item_text p pol x); discriminate.
    + rewrite map_map. apply map_ext_in. intros x Hx.
      apply filter_In in Hx. destruct Hx as [_ Hw].
      destruct x; cbn in Hw; try discriminate; reflexivity.
Qed.

(** *** The outcomes of jsonToStringMap *)

Lemma jsonToStringMap_range_objects `{Lib} (p : Defender) (jbt : list value) :
  forall multiRec,
    jsonToStringMap_range p jbt multiRec
    = if forallb is_object jbt then
        Ok (multiRec
            ++ concat "" (map (fun v => encode p (policy p) v ++ ",") jbt))
      else Panic.
Proof.
  induction jbt as [|n rest IH]; intros multiRec;
    cbn [jsonToStringMap_range forallb map].
  - simpl. now rewrite sapp_nil_r.
  - destruct n; try reflexivity. cbn [is_object andb].
    rewrite ConstructJson_encode. cbn [bind]. rewrite IH.
    destruct (forallb is_object rest); [|reflexivity].
    rewrite concat_cons_nil. unfold WriteByte, WriteString.
    now rewrite !sapp_assoc.
Qed.


(** *** A second pass over what the first pass wrote *)

(** If the policy is idempotent and the decoder reads the bytes written
    for an object back as the sanitized tree of that object, then a second
    pass over those bytes returns them unchanged. *)
Theorem BuildNewBody_second_pass_same `{Lib} (p : Defender) (mp : Json)
  (b1 : string) :
  idempotent (policy p) ->
  ConstructJson p mp = Ok b1 ->
  Decode b1 = Some (sanitize_tree p (policy p) (VMap mp)) ->
  BuildNewBody p b1 = Ok b1.
Proof.
  intros Hp Hfirst Hdec. unfold BuildNewBody, decodeJson. rewrite Hdec.
  cbn [bind sanitize_tree jsonToStringMap].
  rewrite ConstructJson_encode in *. injection Hfirst as <-.
  cbn [bind]. f_equal.
  exact (encode_sanitize_tree p Hp (VMap mp) (policy p) Hp).
Qed.

Lemma BuildNewBody_second_pass_same_example :
  @BuildNewBody (GoLib []) GoDefault
     (js "{'name':'x','n':12.50,'tags':['a',{'k':null}],'password':'<b>y</b>'}")
  = Ok (js "{'name':'x','n':12.50,'tags':['a',{'k':null}],'password':'<b>y</b>'}").
Proof.
  exact (@BuildNewBody_second_pass_same (GoLib []) GoDefault
           [("name", VString "<b>x</b>"); ("n", VNumber "12.50");
            ("tags", VSlice [VString "<i>a</i>"; VMap [("k", VNil)]]);
            ("password", VString "<b>y</b>")]
           (js "{'name':'x','n':12.50,'tags':['a',{'k':null}],'password':'<b>y</b>'}")
           strip_tags_idempotent eq_refl eq_refl).
Defined.

(** *** The dispatcher *)

Lemma bind_Ok_inv {A B : Type} (c : result A) (k : A -> result B) (b : B) :
  bind c k = Ok b -> exists a, c = Ok a /\ k a = Ok b.
Proof. destruct c; cbn [bind]; try discriminate. eauto. Qed.

Lemma HandleJson_Ok `{Lib} (p : Defender) (c c' : Request) :
  HandleJson p c = Ok c' -> exists b, c' = setBody c b.
Proof.
  unfold HandleJson. destruct (Body c); [|discriminate]. intros Hb.
  apply bind_Ok_inv in Hb. destruct Hb as [v [_ Hb]].
  apply bind_Ok_inv in Hb. destruct Hb as [buff [_ Hb]].
  injection Hb as <-. eauto.
Qed.

Lemma HandleXFormEncoded_Ok `{Lib} (p : Defender) (c c' : Request) :
  HandleXFormEncoded p c = Ok c' -> c' = c \/ exists b, c' = setBody c b.
Proof.
  unfold HandleXFormEncoded. destruct (Body c) as [buf|];
    [|intros [= <-]; now left].
  destruct (ParseQuery buf) as [m [uerr|]]; [discriminate|]. intros Hb.
  apply bind_Ok_inv in Hb. destruct Hb as [bq [_ Hb]].
  destruct (1 <? Len bq).
  - apply bind_Ok_inv in Hb. destruct Hb as [bq' [_ Hb]].
    injection Hb as <-. right. eauto.
  - injection Hb as <-. right. eauto.
Qed.

Lemma HandleMultiPartFormData_Ok `{Lib} (p : Defender) (c c' : Request)
  (ct : string) :
  HandleMultiPartFormData p c ct = Ok c' -> exists b, c' = setBody c b.
Proof.
  unfold HandleMultiPartFormData. destruct (Body c); [|discriminate].
  intros Hb. apply bind_Ok_inv in Hb. destruct Hb as [boundary [_ Hb]].
  apply bind_Ok_inv in Hb. destruct Hb as [out [_ Hb]].
  injection Hb as <-. eauto.
Qed.

(** What the dispatcher leaves alone.  A rewritten request keeps its
    method and its Content-Type and Content-Length headers: the length
    header is not brought up to date with the new body.  A GET request
    keeps its body, and every other request keeps its query string. *)
Theorem XssRemove_frame `{Lib} (p : Defender) (c c' : Request) :
  XssRemove p c = Ok c' ->
  Method c' = Method c
  /\ ContentType c' = ContentType c
  /\ ContentLength c' = ContentLength c
  /\ (Method c = "GET" -> Body c' = Body c)
  /\ (Method c <> "GET" -> RawQuery c' = RawQuery c).
Proof.
  unfold XssRemove.
  destruct (String.eqb_spec (Method c) "GET") as [HG|HG].
  - rewrite HG. cbn [String.eqb Ascii.eqb Bool.eqb orb].
    unfold HandleGETRequest. intros [= <-]. repeat split; tauto.
  - destruct ((Method c =? "POST") || (Method c =? "PUT")
              || (Method c =? "PATCH"))%string.
    + assert (Hset : forall b, Method (setBody c b) = Method c
                /\ ContentType (setBody c b) = ContentType c
                /\ ContentLength (setBody c b) = ContentLength c
                /\ (Method c = "GET" -> Body (setBody c b) = Body c)
                /\ (Method c <> "GET" -> RawQuery (setBody c b) = RawQuery c))
        by (intros b; repeat split; tauto).
      destruct ((1 <? Atoi (ContentLength c))
                && (ContentType c =? "application/json")%string).
      { intros Hh. apply HandleJson_Ok in Hh. destruct Hh as [b ->]. apply Hset. }
      destruct (ContentType c =? "application/x-www-form-urlencoded")%string.
      { intros Hh. apply HandleXFormEncoded_Ok in Hh.
        destruct Hh as [-> | [b ->]]; [repeat split; tauto | apply Hset]. }
      destruct (Contains (ContentType c) "multipart/form-data").
      { intros Hh. apply HandleMultiPartFormData_Ok in Hh.
        destruct Hh as [b ->]. apply Hset. }
      intros [= <-]. repeat split; tauto.
    + intros [= <-]. repeat split; tauto.
Qed.

Lemma XssRemove_frame_stale_length :
  let c := json_request "POST" "22" (js "{'bio':'<b>x</b>'}") in
  let c' := json_request "POST" "22" (js "{'bio':'x'}") in
  @XssRemove (GoLib []) GoDefault c = Ok c'
  /\ Method c' = Method c
  /\ ContentType c' = ContentType c
  /\ ContentLength c' = ContentLength c
  /\ (Method c = "GET" -> Body c' = Body c)
  /\ (Method c <> "GET" -> RawQuery c' = RawQuery c).
Proof.
  intros c c'. split; [reflexivity|].
  exact (@XssRemove_frame (GoLib []) GoDefault c c' eq_refl).
Defined.

(** What the dispatcher does not route.  A request with a body method
    whose content type is application/json goes to the JSON codec only
    when its Content-Length header is a number above 1: without the
    header, or with a header that is no number, the body passes through
    unsanitized.  The content type is compared for equality, so
    application/json followed by a parameter passes through as well,
    unless it names a multipart form. *)
Theorem XssRemove_json_not_routed `{Lib} (p : Defender) (c : Request) :
  has_body_method c = true ->
  (ContentType c = "application/json" /\ Atoi (ContentLength c) <= 1)
  \/ (exists suffix, suffix <> ""
        /\ ContentType c = "application/json" ++ suffix
        /\ Contains (ContentType c) "multipart/form-data" = false) ->
  XssRemove p c = Ok c.
Proof.
  unfold has_body_method, XssRemove. intros -> [[Hct Hlen] | [suffix [Hs [Hct Hm]]]].
  - rewrite Hct. destruct (Z.ltb_spec 1 (Atoi (ContentLength c))); [lia|].
    reflexivity.
  - rewrite Hm, Hct. cbn [String.eqb Ascii.eqb Bool.eqb append].
    destruct suffix as [|x suffix]; [congruence|].
    now rewrite andb_false_r.
Qed.

Lemma XssRemove_json_not_routed_examples :
  let c1 := json_request "POST" "" (js "{'bio':'<script>x</script>'}") in
  let c2 := {| Method := "PUT"; ContentType := "application/json; charset=utf-8";
               ContentLength := "30"; Body := Some (js "{'bio':'<script>x</script>'}");
               RawQuery := "" |} in
  @XssRemove (GoLib []) GoDefault c1 = Ok c1
  /\ @XssRemove (GoLib []) GoDefault c2 = Ok c2.
Proof.
  intros c1 c2. split.
  - apply (@XssRemove_json_not_routed (GoLib []) GoDefault c1 eq_refl).
    left. split; [reflexivity | discriminate].
  - apply (@XssRemove_json_not_routed (GoLib []) GoDefault c2 eq_refl).
    right. exists "; charset=utf-8". repeat split. discriminate.
Defined.

(** *** Panics of the request path *)

Lemma substring_length_le (s : string) :
  forall n m, (String.length (substring n m s) <= String.length s - n)%nat.
Proof.
  induction s as [|c s IH]; intros n m.
  - destruct n, m; simpl; lia.
  - destruct n as [|n].
    + destruct m as [|m]; simpl; [lia|]. specialize (IH 0%nat m). lia.
    + simpl. apply IH.
Qed.

Lemma index_bound (s1 s2 : string) (m : nat) :
  s1 <> "" -> index 0 s1 s2 = Some m ->
  (m + String.length s1 <= String.length s2)%nat.
Proof.
  intros Hne Hidx. apply index_correct1 in Hidx.
  pose proof (substring_length_le s2 m (String.length s1)) as Hle.
  rewrite Hidx in Hle. destruct s1; [congruence|]. simpl in *. lia.
Qed.

(** On a content type that contains multipart/form-data, the slice that
    cuts the boundary out is in range, with or without a boundary
    parameter. *)
Lemma slice_from_boundary (ct : string) :
  Contains ct "multipart/form-data" = true ->
  exists boundary, slice_from ct (Index ct "boundary=" + 9) = Ok boundary.
Proof.
  unfold Contains, Index at 1. intros Hc.
  destruct (index 0 "multipart/form-data" ct) as [n|] eqn:Hn; [|discriminate].
  apply index_bound in Hn; [|discriminate]. cbn [String.length] in Hn.
  unfold slice_from, Index, Len.
  destruct (index 0 "boundary=" ct) as [m|] eqn:Hm.
  - apply index_bound in Hm; [|discriminate]. cbn [String.length] in Hm.
    destruct (Z.ltb_spec (Z.of_nat m + 9) 0); [lia|].
    destruct (Z.ltb_spec (Z.of_nat (String.length ct)) (Z.of_nat m + 9)); [lia|].
    eexists. reflexivity.
  - destruct (Z.ltb_spec (-1 + 9) 0); [lia|].
    destruct (Z.ltb_spec (Z.of_nat (String.length ct)) (-1 + 9)); [lia|].
    eexists. reflexivity.
Qed.

Lemma jsonToStringMap_Panic `{Lib} (p : Defender) (v : value) :
  jsonToStringMap p v = Panic
  <-> exists jbt, v = VSlice jbt /\ forallb is_object jbt = false.
Proof.
  destruct v as [| b | n | s | jbt | xmj]; cbn [jsonToStringMap];
    try (split; [discriminate | intros [jbt [E _]]; discriminate]).
  - rewrite jsonToStringMap_range_objects.
    destruct (forallb is_object jbt) eqn:Hall.
    + cbn [bind]. rewrite Truncate_last by (cbn; congruence).
      split; [discriminate|]. intros [jbt' [[= <-] Hf]]. congruence.
    + split; [eauto | reflexivity].
  - rewrite ConstructJson_encode.
    split; [discriminate | intros [jbt [E _]]; discriminate].
Qed.

(** The request path panics in one case only.  For a request with a body,
    and a query parser that gives every key a value, XssRemove panics
    exactly when the request is routed to the JSON codec and its body
    decodes to an array with an element that is not an object; the form
    codec, the multipart codec and the query rewriter never panic. *)
Theorem XssRemove_panics_only_on_arrays `{Lib} (p : Defender) (c : Request)
  (body : string) :
  Body c = Some body ->
  (forall q, Forall (fun kv => snd kv <> []) (fst (ParseQuery q))) ->
  (XssRemove p c = Panic
   <-> has_body_method c = true
       /\ 1 < Atoi (ContentLength c)
       /\ ContentType c = "application/json"
       /\ exists jbt, Decode body = Some (VSlice jbt)
                      /\ forallb is_object jbt = false).
Proof.
  intros Hbody Hparse. unfold XssRemove, has_body_method.
  destruct ((Method c =? "POST") || (Method c =? "PUT")
            || (Method c =? "PATCH"))%string.
  - destruct (Z.ltb_spec 1 (Atoi (ContentLength c))) as [Hlen|Hlen];
      destruct (String.eqb_spec (ContentType c) "application/json") as [Hct|Hct];
      cbn [andb].
    + (* the JSON codec *)
      unfold HandleJson, decodeJson. rewrite Hbody.
      destruct (Decode body) as [v|]; cbn [bind].
      * destruct (jsonToStringMap p v) as [buff | e |] eqn:Hj; cbn [bind].
        -- split; [discriminate|]. intros (_ & _ & _ & jbt & [= ->] & Hf).
           assert (Hp : jsonToStringMap p (VSlice jbt) = Panic)
             by (apply jsonToStringMap_Panic; eauto).
           congruence.
        -- split; [discriminate|]. intros (_ & _ & _ & jbt & [= ->] & Hf).
           assert (Hp : jsonToStringMap p (VSlice jbt) = Panic)
             by (apply jsonToStringMap_Panic; eauto).
           congruence.
        -- apply jsonToStringMap_Panic in Hj. destruct Hj as [jbt [-> Hf]].
           split; [|reflexivity]. intros _. repeat split; trivial. eauto.
      * split; [discriminate|]. intros (_ & _ & _ & jbt & [=] & _).
    + split; [|tauto].
      destruct (ContentType c =? "application/x-www-form-urlencoded")%string eqn:Hf.
      * unfold HandleXFormEncoded. rewrite Hbody. specialize (Hparse body).
        destruct (ParseQuery body) as [m [uerr|]]; [discriminate|].
        cbn [fst] in Hparse. rewrite HandleXFormEncoded_finish by assumption.
        discriminate.
      * destruct (Contains (ContentType c) "multipart/form-data") eqn:Hm;
          [|discriminate].
        unfold HandleMultiPartFormData. rewrite Hbody.
        destruct (slice_from_boundary _ Hm) as [boundary ->]. cbn [bind].
        rewrite HandleMultiPartFormData_loop_emit.
        destruct (first_error _); discriminate.
    + split; [|intros (_ & Hl & _); lia].
      rewrite Hct.
      change (Contains "application/json" "multipart/form-data") with false.
      cbn [String.eqb Ascii.eqb Bool.eqb]. discriminate.
    + split; [|tauto].
      destruct (ContentType c =? "application/x-www-form-urlencoded")%string eqn:Hf.
      * unfold HandleXFormEncoded. rewrite Hbody. specialize (Hparse body).
        destruct (ParseQuery body) as [m [uerr|]]; [discriminate|].
        cbn [fst] in Hparse. rewrite HandleXFormEncoded_finish by assumption.
        discriminate.
      * destruct (Contains (ContentType c) "multipart/form-data") eqn:Hm;
          [|discriminate].
        unfold HandleMultiPartFormData. rewrite Hbody.
        destruct (slice_from_boundary _ Hm) as [boundary ->]. cbn [bind].
        rewrite HandleMultiPartFormData_loop_emit.
        destruct (first_error _); discriminate.
  - split; [|intros [E _]; discriminate].
    destruct (Method c =? "GET")%string; discriminate.
Qed.

Lemma XssRemove_panics_on_array_of_numbers :
  @XssRemove (GoLib []) GoDefault (json_request "POST" "7" "[1,2,3]") = Panic.
Proof.
  apply (proj2 (@XssRemove_panics_only_on_arrays (GoLib []) GoDefault
                  (json_request "POST" "7" "[1,2,3]") "[1,2,3]"
                  eq_refl GoParseQuery_nonempty)).
  repeat split.
  exists [VNumber "1"; VNumber "2"; VNumber "3"]. split; reflexivity.
Defined.

(** *** Failures of the multipart codec *)

Lemma first_error_app (good rest : list Part) :
  first_error good = None ->
  first_error (good ++ rest)%list = first_error rest.
Proof.
  induction good as [|part good IH]; [reflexivity|].
  cbn [first_error app]. destruct (CopyErr part); [discriminate|].
  destruct (Len (Data part) <=? 0); [discriminate | exact IH].
Qed.

(** The first part that cannot be used stops the multipart codec, and
    nothing is rewritten.  When the parts read before it are sound, a part
    whose copy fails makes the handler return that error, and a part with
    no byte, such as a form field left empty, makes it return the error
    "error recreating Multipart form Request". *)
Theorem HandleMultiPartFormData_first_failure `{Lib} (p : Defender)
  (c : Request) (ct body boundary : string) (good rest : list Part)
  (bad : Part) :
  Body c = Some body ->
  slice_from ct (Index ct "boundary=" + 9) = Ok boundary ->
  firstn 100 (NewReader body boundary) = (good ++ bad :: rest)%list ->
  first_error good = None ->
  CopyErr bad <> None \/ Data bad = "" ->
  HandleMultiPartFormData p c ct
  = Err (match CopyErr bad with
         | Some err => err
         | None => errRecreateMultipart
         end).
Proof.
  intros Hbody Hslice Hparts Hgood Hbad.
  unfold HandleMultiPartFormData. rewrite Hbody, Hslice. cbn [bind].
  rewrite HandleMultiPartFormData_loop_emit, Hparts, first_error_app
    by assumption.
  cbn [first_error]. destruct (CopyErr bad) as [err|]; [reflexivity|].
  destruct Hbad as [Hc | ->]; [congruence | reflexivity].
Qed.

Lemma HandleMultiPartFormData_empty_field :
  @HandleMultiPartFormData (GoLib empty_field_parts) GoDefault
     (multipart_request "(body)") "multipart/form-data; boundary=XY"
  = Err errRecreateMultipart.
Proof.
  exact (@HandleMultiPartFormData_first_failure (GoLib empty_field_parts)
           GoDefault (multipart_request "(body)")
           "multipart/form-data; boundary=XY" "(body)" "XY"
           [ {| FormName := "name"; FileName := ""; HeaderContentType := "";
                Data := "Ann"; CopyErr := None |} ]
           [ {| FormName := "bio"; FileName := ""; HeaderContentType := "";
                Data := "<b>x</b>"; CopyErr := None |} ]
           {| FormName := "comment"; FileName := ""; HeaderContentType := "";
              Data := ""; CopyErr := None |}
           eq_refl eq_refl eq_refl eq_refl (or_intror eq_refl)).
Defined.

(** *** Values under skip fields *)

(** A skip field keeps its value away from the policy: when every key of
    an object is a skip field, what ConstructJson writes is the same for
    every policy.  The value is written by the quoting verb of fmt, which
    yields JSON for strings only: a number comes out as a quoted string,
    and a boolean or null as the bad-verb text of fmt. *)
Theorem skip_fields_bypass_policy `{Lib} (p : Defender) :
  (forall pol' mp,
      Forall (fun kv => inSkipFields (fst kv) (skipFields p) = true) mp ->
      ConstructJson p mp
      = ConstructJson {| skipFields := skipFields p; policy := pol' |} mp)
  /\ (forall k v, inSkipFields k (skipFields p) = true ->
        ConstructJson p [(k, v)]
        = Ok ("{" ++ entry_key k ++ Sprintf_q v ++ "}"))
  /\ (forall n, Sprintf_q (VNumber n) = Quote n)
  /\ (forall b, Sprintf_q (VBool b) = "%!q(bool=" ++ FormatBool b ++ ")")
  /\ Sprintf_q VNil = "%!q(<nil>)".
Proof.
  split; [|split; [|repeat split]].
  - intros pol' mp Hall. rewrite !ConstructJson_encode, !encode_VMap.
    do 5 f_equal. apply map_ext_Forall. apply Forall_impl with (2 := Hall).
    intros [k x] Hk. unfold encode_entry. cbn [fst snd skipFields] in *.
    now rewrite Hk.
  - intros k v Hk. rewrite ConstructJson_encode, encode_VMap.
    cbn [map]. unfold encode_entry. cbn [fst snd]. rewrite Hk.
    cbn [concat].
    rewrite <- !sapp_assoc, drop_last_snoc. now rewrite !sapp_assoc.
Qed.

Lemma skip_fields_bypass_policy_example :
  @ConstructJson (GoLib []) GoDefault
     [("password", VString "<b>x</b>")]
  = @ConstructJson (GoLib [])
      {| skipFields := ["password"]; policy := fun _ => "" |}
      [("password", VString "<b>x</b>")]
  /\ @ConstructJson (GoLib []) GoDefault [("password", VNumber "1234")]
     = Ok (js "{'password':'1234'}")
  /\ @ConstructJson (GoLib []) GoDefault [("password", VBool true)]
     = Ok (js "{'password':%!q(bool=true)}").
Proof.
  pose proof (@skip_fields_bypass_policy (GoLib []) GoDefault)
    as (Hpol & Hval & _).
  split; [|split].
  - apply (Hpol (fun _ => "")). repeat constructor.
  - apply (Hval "password" (VNumber "1234") eq_refl).
  - apply (Hval "password" (VBool true) eq_refl).
Defined.

(** *** The response filter on JSON content types *)





(** *** The query rewriter, run twice *)

Lemma keys_Values_Set (k key x : string) (v : Values) :
  In k (map fst (Values_Set key x v)) <-> k = key \/ In k (map fst v).
Proof.
  induction v as [|[k' vs] v IH]; cbn [Values_Set map fst In].
  - intuition congruence.
  - destruct (String.eqb_spec k' key) as [->|Hne]; cbn [map fst In].
    + intuition congruence.
    + rewrite IH. intuition congruence.
Qed.

Lemma NoDup_Values_Set (key x : string) (v : Values) :
  NoDup (map fst v) -> NoDup (map fst (Values_Set key x v)).
Proof.
  induction v as [|[k' vs] v IH]; cbn [Values_Set map fst]; intros Hnd.
  - constructor; [intros [] | constructor].
  - inversion Hnd as [|? ? Hnin Hnd']; subst.
    destruct (String.eqb_spec k' key) as [->|Hne]; cbn [map fst].
    + now constructor.
    + constructor; [|now apply IH].
      rewrite keys_Values_Set. intuition congruence.
Qed.

Lemma NoDup_Values_Del (key : string) (v : Values) :
  NoDup (map fst v) -> NoDup (map fst (Values_Del key v)).
Proof.
  unfold Values_Del.
  induction v as [|[k' vs] v IH]; cbn [filter map fst]; intros Hnd; [constructor|].
  inversion Hnd as [|? ? Hnin Hnd']; subst.
  destruct (negb (k' =? key)%string); cbn [map fst]; [|now apply IH].
  constructor; [|now apply IH].
  intros Hin. apply Hnin. apply in_map_iff in Hin.
  destruct Hin as [e [He Hin]]. apply filter_In in Hin.
  apply in_map_iff. exists e. tauto.
Qed.

Lemma NoDup_HandleGETRequest_items (p : Defender) (key : string)
  (items : list string) :
  forall qp, NoDup (map fst qp) ->
             NoDup (map fst (HandleGETRequest_items p key items qp)).
Proof.
  unfold HandleGETRequest_items.
  induction items as [|item items IH]; intros qp Hnd; [exact Hnd|].
  cbn [fold_left]. apply IH. now apply NoDup_Values_Set.
Qed.

(** The rewriter keeps the keys of the query distinct. *)
Lemma NoDup_HandleGETRequest_range (p : Defender) (fieldToSkip : list (string * bool))
  (todo : Values) :
  forall qp, NoDup (map fst qp) ->
             NoDup (map fst (HandleGETRequest_range p fieldToSkip todo qp)).
Proof.
  induction todo as [|[key items] todo IH]; intros qp Hnd; [exact Hnd|].
  cbn [HandleGETRequest_range].
  destruct (fieldToSkip_get fieldToSkip key); [now apply IH|].
  apply IH. apply NoDup_HandleGETRequest_items. now apply NoDup_Values_Del.
Qed.

(** The query rewriter is idempotent on the parameters: for an idempotent
    policy, rewriting the rewritten parameters changes the values of no
    key, and keeps the keys distinct. *)
Theorem HandleGETRequest_range_twice (p : Defender) (entries : Values) :
  NoDup (map fst entries) ->
  idempotent (policy p) ->
  let rewrite_all := fun qp =>
    HandleGETRequest_range p (fieldToSkip_of (skipFields p)) qp qp in
  NoDup (map fst (rewrite_all entries))
  /\ forall key,
       Values_Get key (rewrite_all (rewrite_all entries))
       = Values_Get key (rewrite_all entries).
Proof.
  intros Hnd Hp rewrite_all. subst rewrite_all. cbv beta.
  assert (Hnd' : NoDup (map fst
            (HandleGETRequest_range p (fieldToSkip_of (skipFields p))
               entries entries)))
    by now apply NoDup_HandleGETRequest_range.
  split; [exact Hnd'|]. intros key.
  rewrite (HandleGETRequest_range_get p _ Hnd').
  destruct (Values_Get key (HandleGETRequest_range p _ entries entries))
    as [items'|] eqn:Hget'; [|reflexivity].
  destruct (inSkipFields key (skipFields p)) eqn:Hskip; [reflexivity|].
  rewrite (HandleGETRequest_range_get p entries Hnd) in Hget'.
  rewrite Hskip in Hget'.
  destruct (Values_Get key entries) as [items|]; [|].
  - unfold rewritten in Hget'. destruct items as [|i items]; [discriminate|].
    injection Hget' as <-. unfold rewritten. cbn [last]. now rewrite Hp.
  - discriminate Hget'.
Qed.

Lemma example_query_NoDup :
  NoDup (map fst [("q", ["<b>a</b>"; "<i>b</i>"]); ("password", ["<b>"])]).
Proof.
  cbn [map fst]. repeat constructor; cbn [In]; intuition discriminate.
Qed.

Lemma HandleGETRequest_range_twice_example :
  let rewrite_all := fun qp =>
    HandleGETRequest_range GoDefault (fieldToSkip_of (skipFields GoDefault)) qp qp in
  NoDup (map fst (rewrite_all
                    [("q", ["<b>a</b>"; "<i>b</i>"]); ("password", ["<b>"])]))
  /\ forall key,
       Values_Get key
         (rewrite_all (rewrite_all
            [("q", ["<b>a</b>"; "<i>b</i>"]); ("password", ["<b>"])]))
       = Values_Get key
           (rewrite_all [("q", ["<b>a</b>"; "<i>b</i>"]); ("password", ["<b>"])]).
Proof.
  exact (HandleGETRequest_range_twice GoDefault
           [("q", ["<b>a</b>"; "<i>b</i>"]); ("password", ["<b>"])]
           example_query_NoDup strip_tags_idempotent).
Defined.

(** *** The form codec, read back *)

Lemma plain_key_bytes (k : string) (c : ascii) :
  plain_key k = true -> has_byte c k = true -> shouldEscape c = false.
Proof.
  induction k as [|x k IH]; [discriminate|]. cbn [plain_key has_byte].
  intros Hk Hb. apply andb_true_iff in Hk. destruct Hk as [Hx Hk].
  apply orb_true_iff in Hb. destruct Hb as [Hb|Hb]; [|now apply IH].
  apply Ascii.eqb_eq in Hb. subst. now apply negb_true_iff.
Qed.

Lemma has_byte_app (c : ascii) (a b : string) :
  has_byte c (a ++ b) = has_byte c a || has_byte c b.
Proof.
  induction a as [|x a IH]; [reflexivity|]. cbn [append has_byte].
  rewrite IH. apply orb_assoc.
Qed.

Lemma hex2_unhex (c : ascii) :
  exists h1 h2,
    hex2 "0123456789ABCDEF" c = String h1 (String h2 "")
    /\ ishex h1 && ishex h2 = true
    /\ ascii_of (16 * unhex h1 + unhex h2) = c
    /\ shouldEscape h1 = false /\ shouldEscape h2 = false.
Proof.
  destruct c as [[] [] [] [] [] [] [] []];
    do 2 eexists; repeat split; reflexivity.
Qed.

Lemma GoQueryUnescape_Escape (s : string) :
  GoQueryUnescape (GoQueryEscape s) = Some s.
Proof.
  induction s as [|c s IH]; [reflexivity|]. cbn [GoQueryEscape].
  destruct (Ascii.eqb_spec c " ") as [->|Hsp].
  - cbn. now rewrite IH.
  - destruct (shouldEscape c) eqn:Hesc.
    + destruct (hex2_unhex c) as (h1 & h2 & -> & Hhex & Hc & _).
      cbn [append GoQueryUnescape]. cbn [Ascii.eqb Bool.eqb].
      rewrite Hhex, IH, Hc. reflexivity.
    + cbn [append GoQueryUnescape].
      destruct (Ascii.eqb_spec c "%") as [->|_]; [discriminate Hesc|].
      destruct (Ascii.eqb_spec c "+") as [->|_]; [discriminate Hesc|].
      now rewrite IH.
Qed.

Lemma has_byte_single (c x : ascii) :
  has_byte c (String x "") = true -> c = x.
Proof.
  cbn [has_byte]. rewrite orb_false_r. intros Hb.
  apply Ascii.eqb_eq in Hb. congruence.
Qed.

Lemma GoQueryEscape_bytes (s : string) (c : ascii) :
  has_byte c (GoQueryEscape s) = true ->
  c = "+"%char \/ c = "%"%char \/ shouldEscape c = false.
Proof.
  induction s as [|x s IH]; [discriminate|]. cbn [GoQueryEscape].
  rewrite has_byte_app. intros Hb. apply orb_true_iff in Hb.
  destruct Hb as [Hb|Hb]; [|now apply IH].
  destruct (Ascii.eqb x " ").
  - apply has_byte_single in Hb. auto.
  - destruct (shouldEscape x) eqn:Hesc.
    + destruct (hex2_unhex x) as (h1 & h2 & E & _ & _ & H1 & H2).
      rewrite E in Hb.
      change ("%" ++ String h1 (String h2 ""))
        with (String "%" "" ++ String h1 "" ++ String h2 "") in Hb.
      rewrite !has_byte_app in Hb.
      apply orb_true_iff in Hb. destruct Hb as [Hb|Hb];
        [apply has_byte_single in Hb; auto|].
      apply orb_true_iff in Hb.
      destruct Hb as [Hb|Hb]; apply has_byte_single in Hb; subst; auto.
    + apply has_byte_single in Hb. subst. auto.
Qed.

Lemma plain_key_Unescape (k : string) :
  plain_key k = true -> GoQueryUnescape k = Some k.
Proof.
  induction k as [|c k IH]; [reflexivity|]. cbn [plain_key]. intros Hk.
  apply andb_true_iff in Hk. destruct Hk as [Hc Hk].
  apply negb_true_iff in Hc. cbn [GoQueryUnescape].
  destruct (Ascii.eqb_spec c "%") as [->|_]; [discriminate Hc|].
  destruct (Ascii.eqb_spec c "+") as [->|_]; [discriminate Hc|].
  now rewrite IH.
Qed.

Lemma Cut_app (sep : ascii) (a b : string) :
  has_byte sep a = false -> Cut sep (a ++ String sep b) = (a, b).
Proof.
  induction a as [|c a IH]; cbn [append Cut has_byte].
  - now rewrite Ascii.eqb_refl.
  - intros Hb. apply orb_false_iff in Hb. destruct Hb as [Hc Ha].
    rewrite Hc, IH by assumption. reflexivity.
Qed.

Lemma split_cons (sep : ascii) (a : string) (l : list string) :
  has_byte sep a = false -> l <> [] ->
  split sep (a ++ String sep (concat (String sep "") l))
  = a :: split sep (concat (String sep "") l).
Proof.
  intros Ha _. induction a as [|c a IH]; cbn [append split].
  - now rewrite Ascii.eqb_refl.
  - cbn [has_byte] in Ha. apply orb_false_iff in Ha. destruct Ha as [Hc Ha].
    rewrite Hc, IH by assumption. reflexivity.
Qed.

Lemma split_single (sep : ascii) (a : string) :
  has_byte sep a = false -> split sep a = [a].
Proof.
  induction a as [|c a IH]; [reflexivity|]. cbn [has_byte split].
  intros Ha. apply orb_false_iff in Ha. destruct Ha as [Hc Ha].
  rewrite Hc, IH by assumption. reflexivity.
Qed.

Lemma split_concat (sep : ascii) (l : list string) :
  l <> [] -> Forall (fun a => has_byte sep a = false) l ->
  split sep (concat (String sep "") l) = l.
Proof.
  induction l as [|a l IH]; [congruence|]. intros _ Hall.
  inversion Hall as [|? ? Ha Hl]; subst. destruct l as [|b l].
  - cbn [concat]. now apply split_single.
  - change (concat (String sep "") (a :: b :: l))
      with (a ++ String sep (concat (String sep "") (b :: l))).
    rewrite split_cons by (trivial; discriminate).
    rewrite IH by (trivial; discriminate). reflexivity.
Qed.

Lemma has_byte_false (c : ascii) (s : string) :
  (has_byte c s = true -> False) -> has_byte c s = false.
Proof. destruct (has_byte c s); [intros Hf; now elim Hf | reflexivity]. Qed.

(** The segment written for a key and the text of its value holds
    neither an ampersand nor a semicolon, and is cut at its first equals
    sign into the key and the escaped text. *)
Lemma form_segment_bytes (k w : string) (c : ascii) :
  plain_key k = true -> shouldEscape c = true -> c <> "="%char ->
  c <> "+"%char -> c <> "%"%char ->
  has_byte c (k ++ "=" ++ GoQueryEscape w) = false.
Proof.
  intros Hk Hc H1 H2 H3. apply has_byte_false. rewrite !has_byte_app.
  intros Hb. apply orb_true_iff in Hb. destruct Hb as [Hb|Hb].
  - apply (plain_key_bytes k c Hk) in Hb. congruence.
  - apply orb_true_iff in Hb. destruct Hb as [Hb|Hb].
    + apply has_byte_single in Hb. congruence.
    + apply GoQueryEscape_bytes in Hb. intuition congruence.
Qed.

Lemma parseQuery_step_segment (m : Values) (err : option error) (k w : string) :
  plain_key k = true ->
  parseQuery_step (m, err) (k ++ "=" ++ GoQueryEscape w)
  = (Values_Add k w m, err).
Proof.
  intros Hk. unfold parseQuery_step.
  rewrite (form_segment_bytes k w ";") by (trivial; discriminate).
  assert (Hne : ((k ++ "=" ++ GoQueryEscape w) =? "")%string = false)
    by (apply String.eqb_neq; destruct k; discriminate).
  rewrite Hne.
  change (k ++ "=" ++ GoQueryEscape w) with (k ++ String "=" (GoQueryEscape w)).
  rewrite Cut_app.
  - now rewrite plain_key_Unescape, GoQueryUnescape_Escape.
  - apply has_byte_false. intros Hb.
    apply (plain_key_bytes k "=" Hk) in Hb. discriminate.
Qed.

Lemma Values_Add_fresh (k w : string) (m : Values) :
  ~ In k (map fst m) -> Values_Add k w m = (m ++ [(k, [w])])%list.
Proof.
  induction m as [|[k' vs] m IH]; [reflexivity|]. cbn [map fst In Values_Add app].
  intros Hnin. destruct (String.eqb_spec k' k); [tauto|].
  rewrite IH by tauto. reflexivity.
Qed.

Lemma keys_Values_Add (k key w : string) (m : Values) :
  In k (map fst (Values_Add key w m)) <-> k = key \/ In k (map fst m).
Proof.
  induction m as [|[k' vs] m IH]; cbn [Values_Add map fst In].
  - intuition congruence.
  - destruct (String.eqb_spec k' key) as [->|Hne]; cbn [map fst In].
    + intuition congruence.
    + rewrite IH. intuition congruence.
Qed.

Lemma NoDup_Values_Add (key w : string) (m : Values) :
  NoDup (map fst m) -> NoDup (map fst (Values_Add key w m)).
Proof.
  induction m as [|[k' vs] m IH]; cbn [Values_Add map fst]; intros Hnd.
  - constructor; [intros [] | constructor].
  - inversion Hnd as [|? ? Hnin Hnd']; subst.
    destruct (String.eqb_spec k' key) as [->|Hne]; cbn [map fst].
    + now constructor.
    + constructor; [|now apply IH].
      rewrite keys_Values_Add. intuition congruence.
Qed.

(** The reference parser gives each key once. *)
Lemma GoParseQuery_NoDup (query : string) :
  NoDup (map fst (fst (GoParseQuery query))).
Proof.
  unfold GoParseQuery.
  assert (Hgen : forall segs st,
             NoDup (map fst (fst st)) ->
             NoDup (map fst (fst (fold_left parseQuery_step segs st)))).
  { induction segs as [|seg segs IH]; intros st Hst; [exact Hst|].
    cbn [fold_left]. apply IH. destruct st as [m err]. cbn [fst] in *.
    unfold parseQuery_step.
    destruct (has_byte ";" seg); [exact Hst|].
    destruct (String.eqb seg ""); [exact Hst|].
    destruct (Cut "=" seg) as [k v].
    destruct (GoQueryUnescape k); [|exact Hst].
    destruct (GoQueryUnescape v); [|exact Hst].
    cbn [fst]. now apply NoDup_Values_Add. }
  apply Hgen. constructor.
Qed.

Lemma parse_form_segments (p : Defender) (m : Values) :
  forall acc err,
    NoDup (map fst acc ++ map fst m)%list ->
    forallb plain_key (map fst m) = true ->
    fold_left parseQuery_step
      (map (fun kv => fst kv ++ "=" ++
                      GoQueryEscape (field_policy p (fst kv) (hd "" (snd kv)))) m)
      (acc, err)
    = ((acc ++ map (fun kv => (fst kv, [field_policy p (fst kv) (hd "" (snd kv))]))
                   m)%list, err).
Proof.
  induction m as [|[k v] m IH]; intros acc err Hnd Hplain.
  - cbn. now rewrite List.app_nil_r.
  - cbn [map fst snd fold_left forallb] in *.
    apply andb_true_iff in Hplain. destruct Hplain as [Hk Hm].
    rewrite parseQuery_step_segment by assumption.
    assert (Hfresh : ~ In k (map fst acc)).
    { apply NoDup_remove_2 in Hnd. intros Hin. apply Hnd.
      apply in_or_app. now left. }
    rewrite Values_Add_fresh by assumption.
    rewrite IH; [|rewrite map_app, <- List.app_assoc; exact Hnd | exact Hm].
    now rewrite <- List.app_assoc.
Qed.

(** The form codec can be read back.  When the keys of a form body need
    no escaping, the body the codec writes parses, without error, to the
    same keys in the same order, each with one value: the first value the
    key had, sanitized unless the key is a skip field. *)
Theorem HandleXFormEncoded_read_back (parts : list Part) (p : Defender)
  (c : Request) (buf : string) (m : Values) :
  Body c = Some buf ->
  GoParseQuery buf = (m, None) ->
  m <> [] ->
  forallb plain_key (map fst m) = true ->
  exists out,
    @HandleXFormEncoded (GoLib parts) p c = Ok (setBody c out)
    /\ GoParseQuery out
       = (map (fun kv => (fst kv, [field_policy p (fst kv) (hd "" (snd kv))])) m,
          None).
Proof.
  intros Hbody Hparse Hm Hplain.
  pose proof (GoParseQuery_nonempty buf) as Hvals.
  pose proof (GoParseQuery_NoDup buf) as Hnd.
  rewrite Hparse in Hvals, Hnd. cbn [fst] in Hvals, Hnd.
  exists (concat "&" (map (@form_pair (GoLib parts) p) m)). split.
  - unfold HandleXFormEncoded. rewrite Hbody. cbn [ParseQuery GoLib].
    rewrite Hparse.
    rewrite (@HandleXFormEncoded_finish (GoLib parts) p c buf m Hvals).
    destruct m; [congruence | reflexivity].
  - unfold GoParseQuery.
    assert (Hsegs : map (@form_pair (GoLib parts) p) m
                    = map (fun kv => fst kv ++ "=" ++
                             GoQueryEscape
                               (field_policy p (fst kv) (hd "" (snd kv)))) m).
    { apply map_ext. intros [k v]. unfold form_pair, field_policy.
      cbn [fst snd QueryEscape GoLib].
      destruct (inSkipFields k (skipFields p)); reflexivity. }
    rewrite Hsegs, split_concat.
    + now rewrite (parse_form_segments p m [] None).
    + destruct m; [congruence | discriminate].
    + apply Forall_forall. intros seg Hin. apply in_map_iff in Hin.
      destruct Hin as [[k v] [<- Hin]]. cbn [fst snd].
      apply form_segment_bytes; try discriminate; [|reflexivity].
      apply (proj1 (forallb_forall plain_key (map fst m)) Hplain).
      apply in_map_iff. exists (k, v). auto.
Qed.

Lemma HandleXFormEncoded_read_back_example :
  exists out,
    @HandleXFormEncoded (GoLib []) GoDefault
       (form_request "name=%3Cb%3EAnn+Lee%3C%2Fb%3E&password=a%26b&name=2")
    = Ok (setBody (form_request
                     "name=%3Cb%3EAnn+Lee%3C%2Fb%3E&password=a%26b&name=2") out)
    /\ GoParseQuery out = ([("name", ["Ann Lee"]); ("password", ["a&b"])], None).
Proof.
  exact (HandleXFormEncoded_read_back [] GoDefault
           (form_request "name=%3Cb%3EAnn+Lee%3C%2Fb%3E&password=a%26b&name=2")
           "name=%3Cb%3EAnn+Lee%3C%2Fb%3E&password=a%26b&name=2"
           [("name", ["<b>Ann Lee</b>"; "2"]); ("password", ["a&b"])]
           eq_refl eq_refl (fun E => match E with end) eq_refl).
Defined.

(** The keys themselves are written without escaping: a key that holds an
    ampersand is read back as two keys. *)
Example HandleXFormEncoded_raw_key :
  @HandleXFormEncoded (GoLib []) GoDefault (form_request "a%26b=1")
  = Ok (form_request "a&b=1")
  /\ fst (GoParseQuery "a%26b=1") = [("a&b", ["1"])]
  /\ fst (GoParseQuery "a&b=1") = [("a", [""]); ("b", ["1"])].
Proof. repeat split. Qed.

(** *** The boundary of a multipart body *)

Lemma substring_split (s : string) :
  forall n a b,
    substring n (a + b) s = substring n a s ++ substring (n + a) b s.
Proof.
  induction s as [|c s IH]; intros n a b.
  - destruct n, a, b; reflexivity.
  - destruct n as [|n].
    + destruct a as [|a].
      * reflexivity.
      * cbn [Nat.add substring append]. rewrite (IH 0%nat a b). reflexivity.
    + cbn [Nat.add substring]. apply IH.
Qed.

Lemma substring_all (s : string) : substring 0 (String.length s) s = s.
Proof. induction s as [|c s IH]; [reflexivity|]. cbn. now rewrite IH. Qed.

Lemma substring_length_exact (s : string) :
  forall n m, (n + m <= String.length s)%nat ->
              String.length (substring n m s) = m.
Proof.
  induction s as [|c s IH]; intros n m Hle.
  - cbn in Hle. destruct n, m; try lia; reflexivity.
  - destruct n as [|n].
    + destruct m as [|m]; [reflexivity|]. cbn [substring String.length] in *.
      rewrite (IH 0%nat m); lia.
    + cbn [substring String.length] in *. apply IH. lia.
Qed.

(** The boundary is cut out of the content type by position, and nothing
    else is looked at.  With a boundary= parameter, the boundary is all
    that follows its first occurrence, up to the end of the header:
    quotes and further parameters included.  Without one, it is the
    content type from its ninth byte on. *)
Theorem boundary_of_content_type (ct : string) :
  Contains ct "multipart/form-data" = true ->
  exists pre boundary,
    slice_from ct (Index ct "boundary=" + 9) = Ok boundary
    /\ ((0 <= Index ct "boundary=" /\ ct = pre ++ "boundary=" ++ boundary)
        \/ (Index ct "boundary=" = -1 /\ String.length pre = 8%nat
            /\ ct = pre ++ boundary)).
Proof.
  unfold Contains, Index at 1. intros Hc.
  destruct (index 0 "multipart/form-data" ct) as [n|] eqn:Hn; [|discriminate].
  apply index_bound in Hn; [|discriminate]. cbn [String.length] in Hn.
  unfold slice_from, Index, Len.
  destruct (index 0 "boundary=" ct) as [m|] eqn:Hm.
  - assert (Hb := Hm). apply index_bound in Hb; [|discriminate].
    apply index_correct1 in Hm. cbn [String.length] in Hb, Hm.
    destruct (Z.ltb_spec (Z.of_nat m + 9) 0); [lia|].
    destruct (Z.ltb_spec (Z.of_nat (String.length ct)) (Z.of_nat m + 9)); [lia|].
    cbn [orb].
    replace (Z.to_nat (Z.of_nat m + 9)) with (m + 9)%nat by lia.
    exists (substring 0 m ct). eexists. split; [reflexivity|]. left.
    split; [lia|].
    rewrite <- Hm.
    rewrite <- (substring_split ct m 9 (String.length ct - (m + 9))).
    replace (9 + (String.length ct - (m + 9)))%nat
      with (String.length ct - m)%nat by lia.
    pose proof (substring_split ct 0 m (String.length ct - m)) as E.
    change (0 + m)%nat with m in E. rewrite <- E.
    replace (m + (String.length ct - m))%nat with (String.length ct) by lia.
    symmetry. apply substring_all.
  - destruct (Z.ltb_spec (-1 + 9) 0); [lia|].
    destruct (Z.ltb_spec (Z.of_nat (String.length ct)) (-1 + 9)); [lia|].
    cbn [orb]. change (Z.to_nat (-1 + 9)) with 8%nat.
    exists (substring 0 8 ct). eexists. split; [reflexivity|]. right.
    split; [reflexivity|]. split.
    + apply substring_length_exact. lia.
    + pose proof (substring_split ct 0 8 (String.length ct - 8)) as E.
      change (0 + 8)%nat with 8%nat in E. rewrite <- E.
      replace (8 + (String.length ct - 8))%nat with (String.length ct) by lia.
      symmetry. apply substring_all.
Qed.

Lemma boundary_of_content_type_quoted :
  exists pre boundary,
    slice_from (js "multipart/form-data; boundary='XY'; charset=utf-8")
      (Index (js "multipart/form-data; boundary='XY'; charset=utf-8") "boundary=" + 9)
    = Ok boundary
    /\ ((0 <= Index (js "multipart/form-data; boundary='XY'; charset=utf-8")
                "boundary="
         /\ js "multipart/form-data; boundary='XY'; charset=utf-8"
            = pre ++ "boundary=" ++ boundary)
        \/ (Index (js "multipart/form-data; boundary='XY'; charset=utf-8")
              "boundary=" = -1
            /\ String.length pre = 8%nat
            /\ js "multipart/form-data; boundary='XY'; charset=utf-8"
               = pre ++ boundary)).
Proof.
  exact (boundary_of_content_type
           (js "multipart/form-data; boundary='XY'; charset=utf-8") eq_refl).
Defined.

Example boundary_examples :
  slice_from (js "multipart/form-data; boundary='XY'; charset=utf-8")
    (Index (js "multipart/form-data; boundary='XY'; charset=utf-8") "boundary=" + 9)
  = Ok (js "'XY'; charset=utf-8")
  /\ slice_from "multipart/form-data" (Index "multipart/form-data" "boundary=" + 9)
     = Ok "t/form-data".
Proof. split; reflexivity. Qed.
